(** * Streaming forecast-and-alert pipeline

    A shallow embedding of the two programs that carry the pipeline:

    - [Broker_Forecasting_Temperature_file.py]: the per-sensor sliding
      window (two [deque(maxlen=lookback)]), the autoregressive rolling
      forecast [predict_with_loaded_model] and the future timestamps
      built in [on_message];
    - [Second_IoT_Screen.py]: the threshold check [check_thresholds] and
      the alert display state updated by [update_background_color] and
      [update_alert_text].

    The plotting listener [mqtt_listener.py] is embedded as far as its
    handler fills the same kind of window.

    Temperatures are Python floats, that is IEEE 754 binary64 numbers:
    they are modelled by Rocq's primitive floats, and the comparisons of
    the source are the primitive comparisons.  Library calls whose result
    the programs only pass along (the JSON parser, the Keras model, the
    scaler, ISO-8601 parsing and printing, float formatting) are section
    variables, with the exceptions they can raise: every theorem holds
    for all of them. *)

From Stdlib Require Import ZArith String Ascii Bool Arith Lia PrimFloat Permutation List.
From Stdlib Require DecimalString.
Import ListNotations.

Set Warnings "-register-all".

Local Open Scope string_scope.
Local Open Scope nat_scope.
Local Open Scope list_scope.

(** ** Python values and helpers *)

(** What [json.loads] returns. *)
Inductive json : Type :=
| JNull
| JBool (b : bool)
| JInt (z : Z)
| JFloat (f : float)
| JStr (s : string)
| JArr (l : list json)
| JObj (kv : list (string * json)).

(** [data.get(key)].  The outer [None] is the [AttributeError] raised when
    [data] is not a dict; a missing key gives Python's [None], here [JNull]. *)
Definition dict_get (data : json) (key : string) : option json :=
  match data with
  | JObj kv =>
      Some match find (fun p => String.eqb (fst p) key) kv with
           | Some p => snd p
           | None => JNull
           end
  | _ => None
  end.

(** [l[-n:]]: the last [n] elements, the whole list when it is shorter.
    ([l[-0:]] is [l[0:]], the whole list.) *)
Definition slice_last {A : Type} (n : nat) (l : list A) : list A :=
  if n =? 0 then l else skipn (length l - n) l.

(** The last [n] elements of [l], in order: what a window of capacity [n]
    is expected to hold after the items of [l] arrived one by one. *)
Definition lastn {A : Type} (n : nat) (l : list A) : list A :=
  skipn (length l - n) l.

(** [l[-1]]; [None] is the [IndexError] on an empty list. *)
Definition last_item {A : Type} (l : list A) : option A :=
  match rev l with
  | [] => None
  | x :: _ => Some x
  end.

(** [a[i] = x] on a list of fixed length; [None] is the [IndexError]. *)
Fixpoint set_item {A : Type} (l : list A) (i : nat) (x : A) : option (list A) :=
  match l, i with
  | [], _ => None
  | _ :: t, O => Some (x :: t)
  | h :: t, S j =>
      match set_item t j x with
      | Some t' => Some (h :: t')
      | None => None
      end
  end.

(** [s.replace('Z', '+00:00')]. *)
Fixpoint replace_Z (s : string) : string :=
  match s with
  | EmptyString => EmptyString
  | String c r =>
      if Ascii.eqb c "Z"%char
      then String.append "+00:00" (replace_Z r)
      else String c (replace_Z r)
  end.

(** ** [datetime] and [timedelta] *)

Record datetime : Type := mk_datetime {
  dt_ordinal : Z;        (* proleptic Gregorian ordinal, day 1 is 0001-01-01 *)
  dt_second : Z;         (* second of the day *)
  dt_microsecond : Z;
  dt_utcoffset : option Z  (* tzinfo: minutes east of UTC, None when naive *)
}.

(** [datetime.max.toordinal()], the ordinal of 9999-12-31. *)
Definition MAXORDINAL : Z := 3652059.

(** [d + timedelta(days=i)]: the date moves by [i] days, the time of day and
    the time zone stay; [None] is the [OverflowError] outside years 1..9999. *)
Definition add_days (d : datetime) (i : Z) : option datetime :=
  let days := (dt_ordinal d + i)%Z in
  if ((0 <? days) && (days <=? MAXORDINAL))%Z
  then Some (mk_datetime days (dt_second d) (dt_microsecond d) (dt_utcoffset d))
  else None.

(** Position of a [datetime] on its own time line, in microseconds. *)
Definition to_microseconds (d : datetime) : Z :=
  ((dt_ordinal d * 86400 + dt_second d) * 1000000 + dt_microsecond d)%Z.

(** One day, the fixed step between forecasts, in microseconds. *)
Definition ONE_DAY : Z := (86400 * 1000000)%Z.

(** ** [collections.deque(maxlen=...)] *)

Module Deque.

(** [d.append(x)] on a bounded deque: the item is added on the right and,
    when the deque then holds more than [maxlen] items, one is discarded
    from the left. *)
Definition append {A : Type} (maxlen : nat) (d : list A) (x : A) : list A :=
  let d' := d ++ [x] in
  if maxlen <? length d' then tl d' else d'.

Section Facts.
Context {A : Type}.
Implicit Types (d l : list A) (x : A).

Lemma tl_skipn : forall k l, tl (skipn k l) = skipn (S k) l.
Proof.
  induction k as [|k IH]; intros [|a l]; try reflexivity.
  change (tl (skipn k l) = skipn (S k) l). apply IH.
Qed.

Lemma lastn_length n l : length (lastn n l) = Nat.min (length l) n.
Proof. unfold lastn. rewrite length_skipn. lia. Qed.

Lemma lastn_all n l : length l <= n -> lastn n l = l.
Proof.
  intros H. unfold lastn.
  replace (length l - n) with 0 by lia. reflexivity.
Qed.

(** A full deque loses its leftmost item on [append]. *)
Lemma append_full maxlen d x :
  0 < maxlen -> length d = maxlen -> append maxlen d x = tl d ++ [x].
Proof.
  intros Hpos H. unfold append. rewrite length_app. simpl.
  destruct (Nat.ltb_spec maxlen (length d + 1)) as [_|Hge]; [|lia].
  destruct d as [|a d]; simpl in *; [lia|reflexivity].
Qed.

(** A deque with room left just grows. *)
Lemma append_room maxlen d x :
  length d < maxlen -> append maxlen d x = d ++ [x].
Proof.
  intros H. unfold append. rewrite length_app. simpl.
  destruct (Nat.ltb_spec maxlen (length d + 1)) as [Hlt|_]; [lia|reflexivity].
Qed.

(** Appending to the last [maxlen] items of [l] gives the last [maxlen]
    items of [l ++ [x]]. *)
Lemma append_lastn maxlen l x :
  append maxlen (lastn maxlen l) x = lastn maxlen (l ++ [x]).
Proof.
  destruct (Nat.le_gt_cases maxlen (length l)) as [Hfull|Hroom].
  - destruct (Nat.eq_dec maxlen 0) as [->|Hne].
    + unfold lastn, append. rewrite !Nat.sub_0_r.
      rewrite !skipn_all. reflexivity.
    + rewrite append_full by (try rewrite lastn_length; lia).
      unfold lastn. rewrite tl_skipn, length_app. simpl.
      replace (length l + 1 - maxlen) with (S (length l - maxlen)) by lia.
      rewrite skipn_app.
      replace (S (length l - maxlen) - length l) with 0 by lia.
      reflexivity.
  - rewrite (lastn_all maxlen l) by lia.
    rewrite append_room by lia.
    rewrite lastn_all by (rewrite length_app; simpl; lia).
    reflexivity.
Qed.

Lemma append_length_le maxlen d x :
  length d <= maxlen -> length (append maxlen d x) <= maxlen.
Proof.
  intros H. unfold append. rewrite length_app. simpl.
  destruct (Nat.ltb_spec maxlen (length d + 1)) as [Hlt|Hge].
  - destruct d; simpl in *; [lia|]. rewrite length_app. simpl. lia.
  - rewrite length_app. simpl. lia.
Qed.

End Facts.

End Deque.

(** ** [Broker_Forecasting_Temperature_file.py] *)

Module Broker.

Definition lookback : nat := 10.
Definition number_of_future_forecasts : nat := 10.

(** The two module-level deques, [temperatures] and [timestamps]. *)
Record state : Type := mk_state {
  temperatures : list json;
  timestamps : list json
}.

Definition initial : state := mk_state [] [].

(** The dict published on the forecast topic. *)
Record forecast_message : Type := mk_message {
  sensor_id : Z;
  sensor_timestamp : list json;
  sensor_data : list float;
  future_timestamps : list string;
  forecasts : list float
}.

(** What one call of [on_message] does besides updating the deques. *)
Inductive outcome : Type :=
| Published (m : forecast_message)   (* client.publish(FORECAST, ...) *)
| NotEnoughData                      (* "Not enough data for prediction yet." *)
| ErrorProcessing.                   (* the except branch: "Error processing message" *)

(** *** Sample collaborators

    Collaborators to run the handler on: a parser that knows the payloads
    below and refuses everything else, a predictor that repeats the
    newest value, a scaler that does nothing, a date parser that knows
    one date. *)

Definition QUOTE : string := String (ascii_of_nat 34) EmptyString.

(** The payload [{"timestamp": "2024-01-10T00:00:00"}]: a JSON object
    without the temperature field. *)
Definition payload_without_temperature : string :=
  String.concat "" ["{"; QUOTE; "timestamp"; QUOTE; ": "; QUOTE;
                    "2024-01-10T00:00:00"; QUOTE; "}"].

(** The payload [{"timestamp": "2024-01-10T00:00:00", "temperature": 20.0}]. *)
Definition payload_reading : string :=
  String.concat "" ["{"; QUOTE; "timestamp"; QUOTE; ": "; QUOTE;
                    "2024-01-10T00:00:00"; QUOTE; ", "; QUOTE; "temperature"; QUOTE;
                    ": 20.0}"].

Definition sample_loads (payload : string) : option json :=
  if String.eqb payload payload_without_temperature then
    Some (JObj [("timestamp", JStr "2024-01-10T00:00:00")])
  else if String.eqb payload payload_reading then
    Some (JObj [("timestamp", JStr "2024-01-10T00:00:00"); ("temperature", JFloat 20.0)])
  else if String.eqb payload "[1, 2]" then Some (JArr [JInt 1; JInt 2])
  else None.

Definition sample_predict (last_input : list float) : float :=
  match last_item last_input with
  | Some x => x
  | None => 0%float
  end.

Definition sample_scaler (x : float) : float := x.

(** The validation scikit-learn runs on a column: it raises on an empty
    column and on one that holds an infinity. *)
Definition sample_accepts (column : list float) : bool :=
  match column with
  | [] => false
  | _ :: _ => forallb (fun x => negb (PrimFloat.is_infinity x)) column
  end.

Fixpoint sample_float64 (values : list json) : option (list float) :=
  match values with
  | [] => Some []
  | JFloat f :: rest =>
      match sample_float64 rest with
      | Some fs => Some (f :: fs)
      | None => None
      end
  | _ :: _ => None
  end.

(** 2024-01-10 is day 738895. *)
Definition sample_fromisoformat (s : string) : option datetime :=
  if String.eqb s "2024-01-10T00:00:00" then Some (mk_datetime 738895 0 0 None)
  else None.

Definition sample_isoformat (d : datetime) : string :=
  if (dt_ordinal d =? 738896)%Z then "2024-01-11T00:00:00" else "later".

Section WithCollaborators.

(** [json.loads(msg.payload.decode())]; [None] when either call raises. *)
Variable json_loads : string -> option json.
(** [model.predict] on the scaled window. *)
Variable model_predict : list float -> float.
(** [scaler.transform] and [scaler.inverse_transform] on a column of one
    feature.  Each first validates the column it is given and raises when
    the validation fails ([scaler_accepts], [scaler_inverse_accepts]:
    [false] is the exception, which scikit-learn raises on an empty column
    and on one that holds an infinity); it then maps every value. *)
Variable scaler_accepts : list float -> bool.
Variable scaler_transform : float -> float.
Variable scaler_inverse_accepts : list float -> bool.
Variable scaler_inverse_transform : float -> float.

(** [scaler.transform(column)]; [None] when it raises. *)
Definition transform (column : list float) : option (list float) :=
  if scaler_accepts column then Some (map scaler_transform column) else None.

(** [scaler.inverse_transform(column)]; [None] when it raises. *)
Definition inverse_transform (column : list float) : option (list float) :=
  if scaler_inverse_accepts column
  then Some (map scaler_inverse_transform column)
  else None.
(** [np.array(...)] as the scaler accepts it: the float64 column, or
    [None] when the values are not numbers and the scaler raises. *)
Variable as_float64 : list json -> option (list float).
(** [datetime.fromisoformat]; [None] is its [ValueError]. *)
Variable fromisoformat : string -> option datetime.
(** [datetime.isoformat]. *)
Variable isoformat : datetime -> string.

(** The loop of [predict_with_loaded_model]: [future_forecasts[i]] is
    set to the prediction on [last_input], then [last_input] drops its
    first element and takes the prediction at its end. *)
Fixpoint forecast_loop (range : list nat) (last_input future_forecasts : list float)
  : option (list float) :=
  match range with
  | [] => Some future_forecasts
  | i :: rest =>
      let future_prediction := model_predict last_input in
      match set_item future_forecasts i future_prediction with
      | None => None
      | Some future_forecasts' =>
          forecast_loop rest (tl last_input ++ [future_prediction]) future_forecasts'
      end
  end.

(** [predict_with_loaded_model(model, scaler, new_data, lookback)];
    [None] is an exception.  The scaler may refuse [new_data];
    [reshape(1, lookback, 1)] raises unless [new_data] has exactly
    [lookback] values; the scaler may refuse the forecasts. *)
Definition predict_with_loaded_model (new_data : list float) (lookback : nat)
  : option (list float) :=
  match transform new_data with
  | None => None
  | Some scaled_new_data =>
      if length scaled_new_data =? lookback then
        let last_input := scaled_new_data in
        match forecast_loop (seq 0 number_of_future_forecasts) last_input
                (repeat 0%float number_of_future_forecasts) with
        | Some future_forecasts => inverse_transform future_forecasts
        | None => None
        end
      else None
  end.

(** The timestamp loop of [on_message], over [range]. *)
Fixpoint future_timestamps_loop (last_datetime : datetime) (range : list Z)
  (future_timestamps : list string) : option (list string) :=
  match range with
  | [] => Some future_timestamps
  | i :: rest =>
      match add_days last_datetime i with
      | None => None
      | Some future_date =>
          future_timestamps_loop last_datetime rest
            (future_timestamps ++ [isoformat future_date])
      end
  end.

(** [range(1, number_of_future_forecasts+1)]. *)
Definition days_ahead : list Z := map Z.of_nat (seq 1 number_of_future_forecasts).

Definition generate_future_timestamps (last_datetime : datetime) : option (list string) :=
  future_timestamps_loop last_datetime days_ahead [].

(** The conversion of the last timestamp: a string is parsed, anything
    else is kept as it is and, not being a [datetime] (it came out of
    JSON), makes the addition of a [timedelta] raise. *)
Definition to_last_datetime (last_timestamp : json) : option datetime :=
  match last_timestamp with
  | JStr s => fromisoformat (replace_Z s)
  | _ => None
  end.

(** The branch of [on_message] taken once the window is full; [None] is
    an exception, caught by the handler. *)
Definition forecast_branch (st : state) : option forecast_message :=
  let reordered_temperature_data := slice_last lookback (temperatures st) in
  let reordered_timestamp_data := slice_last lookback (timestamps st) in
  match last_item reordered_timestamp_data with
  | None => None
  | Some last_timestamp =>
      match to_last_datetime last_timestamp with
      | None => None
      | Some last_datetime =>
          match generate_future_timestamps last_datetime with
          | None => None
          | Some future_timestamps =>
              match as_float64 reordered_temperature_data with
              | None => None
              | Some new_data =>
                  match predict_with_loaded_model new_data lookback with
                  | None => None
                  | Some forecasts =>
                      Some (mk_message 1 reordered_timestamp_data new_data
                              future_timestamps forecasts)
                  end
              end
          end
      end
  end.

(** The first three lines of the handler: the pair it appends to the
    deques, or [None] when decoding or [data.get] raises. *)
Definition reading_of (payload : string) : option (json * json) :=
  match json_loads payload with
  | None => None
  | Some data =>
      match dict_get data "temperature", dict_get data "timestamp" with
      | Some temp, Some ts => Some (temp, ts)
      | _, _ => None
      end
  end.

(** [on_message(client, userdata, msg)]. *)
Definition on_message (st : state) (payload : string) : state * outcome :=
  match reading_of payload with
  | None => (st, ErrorProcessing)
  | Some (temp, ts) =>
      let st' := mk_state (Deque.append lookback (temperatures st) temp)
                          (Deque.append lookback (timestamps st) ts) in
      if lookback <=? length (temperatures st') then
        match forecast_branch st' with
        | Some message => (st', Published message)
        | None => (st', ErrorProcessing)
        end
      else (st', NotEnoughData)
  end.

(** The handler run over a stream of payloads. *)
Definition run (st : state) (payloads : list string) : state :=
  fold_left (fun s p => fst (on_message s p)) payloads st.

(** The readings a stream of payloads holds: one per payload that the
    handler decodes. *)
Definition readings (payloads : list string) : list (json * json) :=
  flat_map (fun p => match reading_of p with Some r => [r] | None => [] end) payloads.

(** The working buffer before step [k] (counted from 0) of a forecast
    started on [window]: each step drops the oldest value and appends
    the prediction made on the buffer. *)
Fixpoint buffer (window : list float) (k : nat) : list float :=
  match k with
  | 0 => window
  | S k' => tl (buffer window k') ++ [model_predict (buffer window k')]
  end.

(** The value predicted at step [k]. *)
Definition prediction (window : list float) (k : nat) : float :=
  model_predict (buffer window k).

(** The last timestamp moved [i] days ahead, time of day unchanged. *)
Definition plus_days (T : datetime) (i : Z) : datetime :=
  mk_datetime (dt_ordinal T + i) (dt_second T) (dt_microsecond T) (dt_utcoffset T).

(** The values the loop predicts on a window, before they are unscaled. *)
Definition predictions (new_data : list float) : list float :=
  map (prediction (map scaler_transform new_data)) (seq 0 number_of_future_forecasts).

(** Whether the first three lines of the handler succeed on a payload. *)
Definition decodes (payload : string) : bool :=
  match reading_of payload with
  | Some _ => true
  | None => false
  end.

(** *** The sliding window *)

(** The deques after one call, whatever the call then publishes. *)
Lemma on_message_state st payload :
  fst (on_message st payload) =
    match reading_of payload with
    | None => st
    | Some (temp, ts) =>
        mk_state (Deque.append lookback (temperatures st) temp)
                 (Deque.append lookback (timestamps st) ts)
    end.
Proof.
  unfold on_message.
  destruct (reading_of payload) as [[temp ts]|]; [|reflexivity].
  cbv zeta. destruct (lookback <=? _); [|reflexivity].
  destruct (forecast_branch _); reflexivity.
Qed.

Lemma run_cons st p payloads :
  run st (p :: payloads) = run (fst (on_message st p)) payloads.
Proof. reflexivity. Qed.

(** The deques hold the last [lookback] readings of everything seen. *)
Lemma run_window : forall payloads seen,
  run (mk_state (lastn lookback (map fst seen)) (lastn lookback (map snd seen)))
      payloads
  = mk_state (lastn lookback (map fst (seen ++ readings payloads)))
             (lastn lookback (map snd (seen ++ readings payloads))).
Proof.
  induction payloads as [|p payloads IH]; intros seen.
  - simpl. rewrite app_nil_r. reflexivity.
  - rewrite run_cons, on_message_state. unfold readings. simpl.
    fold (readings payloads).
    destruct (reading_of p) as [[temp ts]|]; simpl.
    + rewrite !Deque.append_lastn.
      change [temp] with (map (@fst json json) [(temp, ts)]).
      change [ts] with (map (@snd json json) [(temp, ts)]).
      rewrite <- !map_app, IH, <- app_assoc. reflexivity.
    + apply IH.
Qed.

(** C2.  For every sequence of payloads received for the sensor, the
    window (the two deques, filled in lockstep) holds exactly the last
    min(N, L) readings appended so far, in arrival order, where N counts
    the readings and L = [lookback] = 10; its length is min(N, L), never
    above L; and a reading that arrives when the window already holds L
    entries evicts the oldest one, the first of the deque. *)
Theorem sliding_window_fifo (payloads : list string) :
  let st := run initial payloads in
  let rs := readings payloads in
  temperatures st = lastn lookback (map fst rs)
  /\ timestamps st = lastn lookback (map snd rs)
  /\ length (temperatures st) = Nat.min (length rs) lookback
  /\ length (timestamps st) = Nat.min (length rs) lookback
  /\ length (temperatures st) <= lookback
  /\ lookback = 10
  /\ (forall s payload temp ts,
        reading_of payload = Some (temp, ts) ->
        length (temperatures s) = lookback ->
        length (timestamps s) = lookback ->
        fst (on_message s payload)
        = mk_state (tl (temperatures s) ++ [temp]) (tl (timestamps s) ++ [ts])).
Proof.
  intros st rs.
  assert (E : st = mk_state (lastn lookback (map fst rs))
                            (lastn lookback (map snd rs))).
  { subst st rs. apply (run_window payloads []). }
  rewrite E. simpl temperatures. simpl timestamps.
  rewrite !Deque.lastn_length, !length_map.
  repeat split; try reflexivity; try lia.
  intros s payload temp ts Hr Ht Hs.
  rewrite on_message_state, Hr.
  rewrite !Deque.append_full by (assumption || (unfold lookback; lia)).
  reflexivity.
Qed.

(** *** The rolling forecast *)

Lemma set_item_Some {A : Type} : forall (l : list A) (i : nat) (x : A),
  i < length l -> set_item l i x = Some (firstn i l ++ x :: skipn (S i) l).
Proof.
  induction l as [|h t IH]; intros i x Hi; simpl in Hi; [lia|].
  destruct i as [|j]; [reflexivity|].
  cbn [set_item]. rewrite IH by lia. reflexivity.
Qed.

Lemma buffer_shift window : forall k,
  buffer (tl window ++ [model_predict window]) k = buffer window (S k).
Proof.
  induction k as [|k IH]; [reflexivity|].
  change (buffer ?w (S ?n)) with (tl (buffer w n) ++ [model_predict (buffer w n)]) at 1.
  rewrite IH. reflexivity.
Qed.

Lemma forecast_loop_spec : forall n i last_input future_forecasts,
  i + n <= length future_forecasts ->
  forecast_loop (seq i n) last_input future_forecasts
  = Some (firstn i future_forecasts
          ++ map (prediction last_input) (seq 0 n)
          ++ skipn (i + n) future_forecasts).
Proof.
  induction n as [|n IH]; intros i b ff Hlen.
  - simpl. rewrite Nat.add_0_r, firstn_skipn. reflexivity.
  - cbn [seq forecast_loop].
    rewrite set_item_Some by lia.
    rewrite IH by (rewrite length_app, length_firstn; cbn [length];
                   rewrite length_skipn; lia).
    f_equal.
    assert (Hi : length (firstn i ff) = i) by (rewrite length_firstn; lia).
    rewrite firstn_app, Hi.
    replace (S i - i) with 1 by lia.
    rewrite (firstn_all2 (firstn i ff)) by lia.
    rewrite skipn_app, Hi.
    rewrite (skipn_all2 (firstn i ff)) by lia.
    replace (S i + n - i) with (S n) by lia.
    rewrite skipn_cons, skipn_skipn.
    replace (n + S i) with (i + S n) by lia.
    cbn [firstn app seq map].
    rewrite <- app_assoc. cbn [app]. do 3 f_equal.
    rewrite <- seq_shift, map_map. unfold prediction.
    apply map_ext. intros k. rewrite buffer_shift. reflexivity.
Qed.

Lemma buffer_length window : forall k,
  0 < length window -> length (buffer window k) = length window.
Proof.
  intros k Hpos. induction k as [|k IH]; [reflexivity|].
  simpl. rewrite length_app. simpl.
  destruct (buffer window k); simpl in *; lia.
Qed.

Lemma buffer_lastn window : forall k,
  0 < length window ->
  buffer window k
  = lastn (length window) (window ++ map (prediction window) (seq 0 k)).
Proof.
  intros k Hpos. induction k as [|k IH].
  - simpl. rewrite app_nil_r, Deque.lastn_all by lia. reflexivity.
  - rewrite seq_S, map_app, app_assoc. simpl map.
    rewrite <- Deque.append_lastn, <- IH.
    rewrite Deque.append_full by (try apply buffer_length; assumption).
    reflexivity.
Qed.

(** The loop on a scaled window: it never fails, and fills
    [future_forecasts] with the predictions made in turn on the buffer. *)
Lemma forecast_loop_run window :
  forecast_loop (seq 0 number_of_future_forecasts) window
    (repeat 0%float number_of_future_forecasts)
  = Some (map (prediction window) (seq 0 number_of_future_forecasts)).
Proof.
  rewrite forecast_loop_spec by (rewrite repeat_length; lia).
  cbn [firstn app]. rewrite Nat.add_0_l.
  rewrite <- (repeat_length 0%float number_of_future_forecasts) at 2.
  rewrite skipn_all, app_nil_r. reflexivity.
Qed.

(** C1, as the program has it.  On every input window of exactly L
    values (L positive) and for every predictor, provided the scaler does
    not raise (it accepts the window and, at the end, the predicted
    values), [predict_with_loaded_model] returns the H =
    [number_of_future_forecasts] values predicted in turn on a working
    buffer: the buffer starts as the (scaled) input window, the i-th
    output is the (unscaled) prediction on the current buffer, and the
    buffer then drops its oldest value and takes that prediction at its
    end.  The buffer keeps length L; before step k it is the window
    without its k oldest values followed by the k predictions made so
    far, and from step L on it holds predictions only: nothing enters it
    but the input window and earlier predictions. *)
Theorem rolling_forecast_autoregressive (new_data : list float) (L : nat) :
  length new_data = L ->
  0 < L ->
  scaler_accepts new_data = true ->
  scaler_inverse_accepts
    (map (prediction (map scaler_transform new_data))
         (seq 0 number_of_future_forecasts)) = true ->
  let window := map scaler_transform new_data in
  predict_with_loaded_model new_data L
  = Some (map (fun k => scaler_inverse_transform (prediction window k))
              (seq 0 number_of_future_forecasts))
  /\ option_map (@length float) (predict_with_loaded_model new_data L)
     = Some number_of_future_forecasts
  /\ buffer window 0 = window
  /\ (forall k, buffer window (S k)
                = tl (buffer window k) ++ [prediction window k])
  /\ (forall k, length (buffer window k) = L)
  /\ (forall k, k <= L ->
        buffer window k
        = skipn k window ++ map (prediction window) (seq 0 k))
  /\ (forall k, L <= k ->
        buffer window k = map (prediction window) (seq (k - L) L)).
Proof.
  intros Hlen Hpos Hin Hout window.
  assert (Hw : length window = L) by (subst window; rewrite length_map; exact Hlen).
  assert (Hrun : predict_with_loaded_model new_data L
                 = Some (map (fun k => scaler_inverse_transform (prediction window k))
                             (seq 0 number_of_future_forecasts))).
  { unfold predict_with_loaded_model, transform. rewrite Hin. fold window.
    rewrite Hw, Nat.eqb_refl. cbv zeta. rewrite forecast_loop_run.
    unfold inverse_transform. subst window. rewrite Hout, map_map. reflexivity. }
  assert (Hlast : forall k,
             buffer window k
             = skipn k (window ++ map (prediction window) (seq 0 k))).
  { intros k. rewrite buffer_lastn by lia. unfold lastn.
    rewrite length_app, length_map, length_seq, Hw.
    replace (L + k - L) with k by lia. reflexivity. }
  repeat split.
  - exact Hrun.
  - rewrite Hrun. cbn [option_map]. rewrite length_map, length_seq. reflexivity.
  - intros k. rewrite buffer_length by lia. exact Hw.
  - intros k Hk. rewrite Hlast, skipn_app, Hw.
    replace (k - L) with 0 by lia. reflexivity.
  - intros k Hk. rewrite Hlast, skipn_app, Hw.
    rewrite (skipn_all2 window) by lia.
    rewrite skipn_map, skipn_seq. cbn [app].
    replace (k - (k - L)) with L by lia. reflexivity.
Qed.

(** *** The future timestamps *)

Lemma add_days_in_range T i :
  (0 < dt_ordinal T + i <= MAXORDINAL)%Z -> add_days T i = Some (plus_days T i).
Proof.
  intros [Hlo Hhi]. unfold add_days. cbv zeta.
  destruct (Z.ltb_spec 0 (dt_ordinal T + i)) as [_|]; [|lia].
  destruct (Z.leb_spec (dt_ordinal T + i) MAXORDINAL) as [_|]; [|lia].
  reflexivity.
Qed.

Lemma plus_days_microseconds T i :
  to_microseconds (plus_days T i) = (to_microseconds T + i * ONE_DAY)%Z.
Proof. unfold to_microseconds, plus_days, ONE_DAY. simpl. lia. Qed.

Lemma future_timestamps_loop_spec T : forall range acc,
  Forall (fun i => (0 < dt_ordinal T + i <= MAXORDINAL)%Z) range ->
  future_timestamps_loop T range acc
  = Some (acc ++ map (fun i => isoformat (plus_days T i)) range).
Proof.
  induction range as [|i range IH]; intros acc Hall.
  - simpl. rewrite app_nil_r. reflexivity.
  - inversion Hall as [|? ? Hi Hrest]; subst.
    cbn [future_timestamps_loop map].
    rewrite add_days_in_range by exact Hi.
    rewrite IH by exact Hrest.
    rewrite <- app_assoc. reflexivity.
Qed.

(** C4.  For every last timestamp T for which T + H days is still a
    date (years 1 to 9999), the handler builds exactly H future
    timestamps, the i-th (i = 1..H) being the ISO text of T + i days,
    each obtained by adding i days to T itself; as instants they start
    one day after T, consecutive ones are exactly one day apart, and
    they are strictly increasing. *)
Theorem future_timestamps_exact (T : datetime) :
  (0 < dt_ordinal T)%Z ->
  (dt_ordinal T + Z.of_nat number_of_future_forecasts <= MAXORDINAL)%Z ->
  let dates := map (fun i => plus_days T (Z.of_nat i))
                   (seq 1 number_of_future_forecasts) in
  generate_future_timestamps T = Some (map isoformat dates)
  /\ length (map isoformat dates) = number_of_future_forecasts
  /\ (forall i, i < number_of_future_forecasts ->
        nth_error dates i = add_days T (Z.of_nat (S i))
        /\ nth_error dates i = Some (plus_days T (Z.of_nat (S i)))
        /\ to_microseconds (plus_days T (Z.of_nat (S i)))
           = (to_microseconds T + Z.of_nat (S i) * ONE_DAY)%Z)
  /\ (forall i,
        (to_microseconds (plus_days T (Z.of_nat (S (S i))))
         - to_microseconds (plus_days T (Z.of_nat (S i))) = ONE_DAY)%Z
        /\ (to_microseconds (plus_days T (Z.of_nat (S i)))
            < to_microseconds (plus_days T (Z.of_nat (S (S i)))))%Z)
  /\ to_microseconds (plus_days T 1) = (to_microseconds T + ONE_DAY)%Z.
Proof.
  intros Hlo Hhi dates.
  assert (Hnth : forall i, i < number_of_future_forecasts ->
            nth_error dates i = Some (plus_days T (Z.of_nat (S i)))).
  { intros i Hi. subst dates. rewrite nth_error_map, nth_error_seq.
    destruct (Nat.ltb_spec i number_of_future_forecasts); [|lia].
    reflexivity. }
  repeat split.
  - unfold generate_future_timestamps, days_ahead.
    rewrite future_timestamps_loop_spec.
    + subst dates. rewrite !map_map. reflexivity.
    + apply Forall_forall. intros z Hz.
      apply in_map_iff in Hz. destruct Hz as [n [<- Hn]].
      apply in_seq in Hn. lia.
  - rewrite Hnth by assumption. symmetry. apply add_days_in_range. lia.
  - apply Hnth. assumption.
  - apply plus_days_microseconds.
  - rewrite !plus_days_microseconds. unfold ONE_DAY. lia.
  - rewrite !plus_days_microseconds. unfold ONE_DAY. lia.
  - rewrite plus_days_microseconds. lia.
Qed.

(** *** Payloads that do not decode *)

(** A payload on which [json.loads] raises, or whose JSON value is not
    an object, is logged and dropped: the deques are left as they were
    and nothing is published. *)
Lemma undecodable_payload_dropped st payload :
  reading_of payload = None ->
  on_message st payload = (st, ErrorProcessing).
Proof. intros H. unfold on_message. rewrite H. reflexivity. Qed.

(** A JSON object decodes whatever its keys: a missing field reads as
    [None] ([JNull]) and is appended like a value. *)
Lemma object_payload_appended st payload kv :
  json_loads payload = Some (JObj kv) ->
  exists temp ts,
    dict_get (JObj kv) "temperature" = Some temp
    /\ dict_get (JObj kv) "timestamp" = Some ts
    /\ fst (on_message st payload)
       = mk_state (Deque.append lookback (temperatures st) temp)
                  (Deque.append lookback (timestamps st) ts).
Proof.
  intros H. eexists. eexists. split; [reflexivity|]. split; [reflexivity|].
  rewrite on_message_state. unfold reading_of. rewrite H. reflexivity.
Qed.

(** *** Further properties of the forecaster and the handler *)

Lemma map_const_seq {A : Type} (x : A) : forall n start,
  map (fun _ : nat => x) (seq start n) = repeat x n.
Proof.
  induction n as [|n IH]; intros start; [reflexivity|].
  cbn [seq map repeat]. rewrite IH. reflexivity.
Qed.

Lemma predict_outcome new_data L :
  predict_with_loaded_model new_data L
  = if scaler_accepts new_data
       && (length new_data =? L)
       && scaler_inverse_accepts (predictions new_data)
    then Some (map scaler_inverse_transform (predictions new_data))
    else None.
Proof.
  unfold predict_with_loaded_model, transform.
  destruct (scaler_accepts new_data); [|reflexivity].
  rewrite length_map. destruct (length new_data =? L); [|reflexivity].
  cbv zeta. rewrite forecast_loop_run. unfold inverse_transform, predictions.
  destruct (scaler_inverse_accepts _); reflexivity.
Qed.

Lemma predict_Some_inv new_data L out :
  predict_with_loaded_model new_data L = Some out ->
  length out = number_of_future_forecasts /\ length new_data = L.
Proof.
  rewrite predict_outcome. intros Hout.
  destruct (scaler_accepts new_data); [|discriminate].
  destruct (Nat.eqb_spec (length new_data) L) as [Heq|]; [|discriminate].
  destruct (scaler_inverse_accepts (predictions new_data)); [|discriminate].
  cbn [andb] in Hout. injection Hout as Hout. subst out.
  split; [|exact Heq]. unfold predictions.
  rewrite ?length_map, ?length_seq. reflexivity.
Qed.


Lemma predictions_constant c new_data :
  (forall b, model_predict b = c) ->
  predictions new_data = repeat c number_of_future_forecasts.
Proof.
  intros Hc. unfold predictions.
  rewrite <- (map_const_seq c number_of_future_forecasts 0).
  apply map_ext. intros k. unfold prediction. apply Hc.
Qed.

(** With a predictor that returns the same value [c] on every input, and
    a scaler that accepts the window and the predictions, the whole
    forecast is that value, unscaled, [number_of_future_forecasts]
    times. *)
Theorem constant_predictor_constant_forecast (c : float) (new_data : list float) (L : nat) :
  (forall b, model_predict b = c) ->
  length new_data = L ->
  scaler_accepts new_data = true ->
  scaler_inverse_accepts (repeat c number_of_future_forecasts) = true ->
  predict_with_loaded_model new_data L
  = Some (repeat (scaler_inverse_transform c) number_of_future_forecasts).
Proof.
  intros Hc Hlen Hin Hout. rewrite predict_outcome.
  rewrite (predictions_constant c new_data Hc), Hin, Hout, Hlen, Nat.eqb_refl.
  cbn [andb]. rewrite map_repeat. reflexivity.
Qed.

Lemma run_initial payloads :
  run initial payloads
  = mk_state (lastn lookback (map fst (readings payloads)))
             (lastn lookback (map snd (readings payloads))).
Proof. apply (run_window payloads []). Qed.

(** Warm-up: in a run from the empty window, a reading is answered by
    "not enough data" exactly while fewer than [lookback] readings have
    been appended, itself included; from the tenth reading on every reading
    leads to a forecast attempt. *)
Theorem warm_up_then_forecast (payloads : list string) (p : string) (temp ts : json) :
  reading_of p = Some (temp, ts) ->
  (snd (on_message (run initial payloads) p) = NotEnoughData
   <-> S (length (readings payloads)) < lookback).
Proof.
  intros Hr. rewrite run_initial. unfold on_message. rewrite Hr.
  cbn [temperatures timestamps].
  rewrite !Deque.append_lastn. cbv zeta. cbn [temperatures].
  rewrite Deque.lastn_length, length_app, length_map. cbn [length].
  destruct (Nat.leb_spec lookback (Nat.min (length (readings payloads) + 1) lookback))
    as [Hfull|Hroom].
  - split.
    + destruct (forecast_branch _); cbn [snd]; discriminate.
    + intros Hlt. lia.
  - split; [intros _; lia|reflexivity].
Qed.

Lemma slice_last_all {A : Type} (n : nat) (l : list A) :
  0 < n -> length l <= n -> slice_last n l = l.
Proof.
  intros Hpos Hle. unfold slice_last.
  destruct (Nat.eqb_spec n 0); [lia|].
  replace (length l - n) with 0 by lia. reflexivity.
Qed.

Lemma future_timestamps_loop_length T : forall range acc out,
  future_timestamps_loop T range acc = Some out ->
  length out = length acc + length range.
Proof.
  induction range as [|i range IH]; intros acc out H; cbn [future_timestamps_loop] in H.
  - injection H as <-. cbn [length]. lia.
  - destruct (add_days T i); [|discriminate].
    apply IH in H. rewrite H, length_app. cbn [length]. lia.
Qed.

(** What a published message holds.  Whenever the handler publishes (on a
    window that was within its capacity), the window is full and the
    message carries: sensor id 1; the window's timestamps, whole; the
    window's temperatures as numbers, [lookback] of them; as many future
    timestamps as forecasts, [number_of_future_forecasts] each, the
    timestamps built from the parsed newest timestamp of the window and
    the forecasts being the rolling forecast of the message's own
    [sensor_data]. *)
Theorem published_message_shape (st st' : state) (p : string) (m : forecast_message) :
  length (temperatures st) <= lookback ->
  length (timestamps st) <= lookback ->
  on_message st p = (st', Published m) ->
  sensor_id m = 1%Z
  /\ length (temperatures st') = lookback
  /\ sensor_timestamp m = timestamps st'
  /\ as_float64 (temperatures st') = Some (sensor_data m)
  /\ length (sensor_data m) = lookback
  /\ predict_with_loaded_model (sensor_data m) lookback = Some (forecasts m)
  /\ length (forecasts m) = number_of_future_forecasts
  /\ length (future_timestamps m) = number_of_future_forecasts
  /\ exists s T,
       last_item (timestamps st') = Some (JStr s)
       /\ fromisoformat (replace_Z s) = Some T
       /\ generate_future_timestamps T = Some (future_timestamps m).
Proof.
  intros Hlt Hls H. unfold on_message in H.
  destruct (reading_of p) as [[temp ts]|]; [|discriminate].
  cbv zeta in H.
  set (new := mk_state (Deque.append lookback (temperatures st) temp)
                       (Deque.append lookback (timestamps st) ts)) in *.
  destruct (Nat.leb_spec lookback (length (temperatures new))) as [Hfull|_];
    [|discriminate].
  destruct (forecast_branch new) as [message|] eqn:Hb; [|discriminate].
  injection H as <- <-.
  assert (Htl : length (temperatures new) <= lookback)
    by (apply Deque.append_length_le; exact Hlt).
  assert (Hsl : length (timestamps new) <= lookback)
    by (apply Deque.append_length_le; exact Hls).
  unfold forecast_branch in Hb.
  rewrite !slice_last_all in Hb by (assumption || (unfold lookback; lia)).
  destruct (last_item (timestamps new)) as [last_timestamp|] eqn:Hlast; [|discriminate].
  destruct (to_last_datetime last_timestamp) as [T|] eqn:HT; [|discriminate].
  destruct (generate_future_timestamps T) as [future|] eqn:Hfut; [|discriminate].
  destruct (as_float64 (temperatures new)) as [new_data|] eqn:Hdata; [|discriminate].
  destruct (predict_with_loaded_model new_data lookback) as [out|] eqn:Hout; [|discriminate].
  injection Hb as <-. cbn [sensor_id sensor_timestamp sensor_data forecasts future_timestamps].
  destruct (predict_Some_inv new_data lookback out Hout) as [Hlen_out Hlen_data].
  split; [reflexivity|]. split; [lia|]. split; [reflexivity|].
  split; [reflexivity|]. split; [exact Hlen_data|]. split; [exact Hout|].
  split; [exact Hlen_out|]. split.
  - unfold generate_future_timestamps in Hfut.
    apply future_timestamps_loop_length in Hfut. rewrite Hfut.
    unfold days_ahead. rewrite length_map, length_seq. reflexivity.
  - destruct last_timestamp as [| | | |s| |]; cbn [to_last_datetime] in HT;
      try discriminate.
    exists s, T. repeat split; assumption.
Qed.

Lemma last_item_snoc {A : Type} (l : list A) (x : A) : last_item (l ++ [x]) = Some x.
Proof. unfold last_item. rewrite rev_unit. reflexivity. Qed.

Lemma append_snoc {A : Type} (maxlen : nat) (d : list A) (x : A) :
  0 < maxlen -> exists d', Deque.append maxlen d x = d' ++ [x].
Proof.
  intros Hpos. unfold Deque.append. cbv zeta. rewrite length_app. cbn [length].
  destruct (Nat.ltb_spec maxlen (length d + 1)) as [Hlt|_].
  - destruct d as [|a d]; cbn [length] in Hlt; [lia|].
    exists d. reflexivity.
  - exists d. reflexivity.
Qed.

Lemma append_length {A : Type} (maxlen : nat) (d : list A) (x : A) :
  0 < maxlen ->
  length (Deque.append maxlen d x)
  = if maxlen <? S (length d) then length d else S (length d).
Proof.
  intros Hpos. unfold Deque.append. cbv zeta. rewrite length_app. cbn [length].
  replace (length d + 1) with (S (length d)) by lia.
  destruct (Nat.ltb_spec maxlen (S (length d))) as [Hlt|_].
  - destruct d as [|a d]; cbn [length] in *; [lia|].
    cbn [app tl]. rewrite length_app. cbn [length]. lia.
  - rewrite length_app. cbn [length]. lia.
Qed.

Lemma last_item_slice_last_snoc {A : Type} (n : nat) (l : list A) (x : A) :
  last_item (slice_last n (l ++ [x])) = Some x.
Proof.
  unfold slice_last. destruct (Nat.eqb_spec n 0) as [_|Hn]; [apply last_item_snoc|].
  rewrite length_app. cbn [length]. rewrite skipn_app.
  replace (length l + 1 - n - length l) with 0 by lia.
  cbn [skipn]. apply last_item_snoc.
Qed.

(** A reading whose timestamp is not an ISO string (not a string at all,
    or a string the parser refuses) is appended like any other; once the
    window is full, it makes the handler end in the error branch without
    publishing, and the reading stays in the window. *)
Theorem unparsed_timestamp_blocks_forecast (st : state) (p : string) (temp ts : json) :
  reading_of p = Some (temp, ts) ->
  lookback <= S (length (temperatures st)) ->
  to_last_datetime ts = None ->
  on_message st p
  = (mk_state (Deque.append lookback (temperatures st) temp)
              (Deque.append lookback (timestamps st) ts),
     ErrorProcessing).
Proof.
  intros Hr Hfull Hts. unfold on_message. rewrite Hr. cbv zeta.
  cbn [temperatures].
  assert (Hpos : 0 < lookback) by (unfold lookback; lia).
  rewrite (append_length lookback (temperatures st) temp Hpos).
  destruct (Nat.leb_spec lookback
              (if lookback <? S (length (temperatures st))
               then length (temperatures st) else S (length (temperatures st))))
    as [_|Hlt].
  - unfold forecast_branch. cbn [timestamps].
    destruct (append_snoc lookback (timestamps st) ts Hpos) as [d' ->].
    rewrite last_item_slice_last_snoc, Hts. reflexivity.
  - exfalso.
    destruct (Nat.ltb_spec lookback (S (length (temperatures st)))); lia.
Qed.

Lemma future_timestamps_loop_None T i : forall range acc,
  In i range -> add_days T i = None -> future_timestamps_loop T range acc = None.
Proof.
  induction range as [|j range IH]; intros acc Hin Hnone; [destruct Hin|].
  cbn [future_timestamps_loop]. destruct Hin as [->|Hin].
  - rewrite Hnone. reflexivity.
  - destruct (add_days T j); [|reflexivity]. apply IH; assumption.
Qed.

(** The future timestamps exist exactly when the last of them is still
    a date: for a last timestamp within [number_of_future_forecasts] days
    of 9999-12-31 the addition overflows and the handler has no
    timestamps to publish. *)
Theorem far_future_overflow (T : datetime) :
  (0 <= dt_ordinal T)%Z ->
  (generate_future_timestamps T = None
   <-> (MAXORDINAL < dt_ordinal T + Z.of_nat number_of_future_forecasts)%Z).
Proof.
  intros Hlo. unfold generate_future_timestamps. split.
  - intros Hnone.
    destruct (Z.lt_ge_cases MAXORDINAL
                (dt_ordinal T + Z.of_nat number_of_future_forecasts)) as [Hgt|Hle];
      [exact Hgt|].
    rewrite future_timestamps_loop_spec in Hnone; [discriminate|].
    apply Forall_forall. intros z Hz. unfold days_ahead in Hz.
    apply in_map_iff in Hz. destruct Hz as [n [<- Hn]].
    apply in_seq in Hn. lia.
  - intros Hgt.
    apply (future_timestamps_loop_None T (Z.of_nat number_of_future_forecasts)).
    + unfold days_ahead. apply in_map. apply in_seq.
      unfold number_of_future_forecasts. lia.
    + unfold add_days. cbv zeta.
      destruct (Z.leb_spec (dt_ordinal T + Z.of_nat number_of_future_forecasts)
                  MAXORDINAL) as [Hle|_]; [lia|].
      rewrite andb_false_r. reflexivity.
Qed.

Lemma replace_Z_app : forall s1 s2,
  replace_Z (String.append s1 s2) = String.append (replace_Z s1) (replace_Z s2).
Proof.
  induction s1 as [|c s1 IH]; intros s2; [reflexivity|].
  cbn [String.append replace_Z]. rewrite IH.
  destruct (Ascii.eqb c "Z"); reflexivity.
Qed.

Lemma replace_Z_without_Z : forall s,
  ~ In "Z"%char (list_ascii_of_string s) -> replace_Z s = s.
Proof.
  induction s as [|c s IH]; intros Hno; [reflexivity|].
  cbn [replace_Z list_ascii_of_string] in *.
  destruct (Ascii.eqb_spec c "Z") as [->|_].
  - exfalso. apply Hno. left. reflexivity.
  - rewrite IH; [reflexivity|]. intros Hin. apply Hno. right. exact Hin.
Qed.

Lemma replace_Z_free : forall s, ~ In "Z"%char (list_ascii_of_string (replace_Z s)).
Proof.
  induction s as [|c s IH]; [intros []|].
  cbn [replace_Z]. destruct (Ascii.eqb_spec c "Z") as [->|Hne].
  - cbn. intros [H|[H|[H|[H|[H|[H|H]]]]]]; try discriminate H. exact (IH H).
  - cbn [list_ascii_of_string]. intros [H|H]; [exact (Hne H)|exact (IH H)].
Qed.

(** The newest timestamp is parsed after every 'Z' in it has been replaced
    by '+00:00': the parser never sees a 'Z', a string without one is
    parsed as it is, a UTC suffix 'Z' becomes the offset '+00:00', and a
    timestamp that is not a string yields no date. *)
Theorem timestamp_normalised :
  (forall s, ~ In "Z"%char (list_ascii_of_string (replace_Z s)))
  /\ (forall s,
        ~ In "Z"%char (list_ascii_of_string s) ->
        to_last_datetime (JStr s) = fromisoformat s)
  /\ (forall s,
        to_last_datetime (JStr (String.append s "Z"))
        = fromisoformat (String.append (replace_Z s) "+00:00"))
  /\ (forall j, (forall s, j <> JStr s) -> to_last_datetime j = None).
Proof.
  split; [exact replace_Z_free|]. split; [|split].
  - intros s Hno. cbn [to_last_datetime]. rewrite replace_Z_without_Z by exact Hno.
    reflexivity.
  - intros s. cbn [to_last_datetime]. rewrite replace_Z_app. reflexivity.
  - intros j Hj. destruct j; try reflexivity. exfalso. apply (Hj s). reflexivity.
Qed.

(** Payloads that do not decode leave no trace: each is answered by the
    error branch with the window untouched, and the window after a stream
    is the window after the same stream without them. *)
Theorem undecodable_payloads_invisible (st : state) (payloads : list string) :
  run st payloads = run st (filter decodes payloads)
  /\ readings payloads = readings (filter decodes payloads)
  /\ Forall (fun p => forall s, on_message s p = (s, ErrorProcessing))
            (filter (fun p => negb (decodes p)) payloads).
Proof.
  split; [|split].
  - revert st. induction payloads as [|p payloads IH]; intros st; [reflexivity|].
    cbn [filter]. unfold decodes at 1.
    rewrite run_cons, on_message_state.
    destruct (reading_of p) as [[temp ts]|] eqn:Hr.
    + rewrite run_cons, on_message_state, Hr. apply IH.
    + apply IH.
  - induction payloads as [|p payloads IH]; [reflexivity|].
    cbn [filter]. unfold decodes at 1. unfold readings in *. cbn [flat_map].
    destruct (reading_of p) as [r|] eqn:Hr.
    + cbn [flat_map]. rewrite Hr, IH. reflexivity.
    + exact IH.
  - apply Forall_forall. intros p Hp. apply filter_In in Hp.
    destruct Hp as [_ Hp]. unfold decodes in Hp.
    destruct (reading_of p) eqn:Hr; [discriminate|].
    intros s. apply undecodable_payload_dropped. exact Hr.
Qed.

End WithCollaborators.

(** *** A concrete run *)

Definition sample_on_message : state -> string -> state * outcome :=
  on_message sample_loads sample_predict sample_accepts sample_scaler sample_accepts sample_scaler
    sample_float64 sample_fromisoformat sample_isoformat.

Definition sample_run : state -> list string -> state :=
  run sample_loads sample_predict sample_accepts sample_scaler sample_accepts sample_scaler
    sample_float64 sample_fromisoformat sample_isoformat.

(** Ten readings of 20.0 and a predictor that repeats the newest value:
    the forecast is ten times 20.0. *)
Lemma rolling_forecast_autoregressive_witness :
  length (repeat 20.0%float 10) = 10
  /\ 0 < 10
  /\ sample_accepts (repeat 20.0%float 10) = true
  /\ sample_accepts
       (map (prediction sample_predict (map sample_scaler (repeat 20.0%float 10)))
            (seq 0 number_of_future_forecasts)) = true
  /\ predict_with_loaded_model sample_predict sample_accepts sample_scaler
       sample_accepts sample_scaler (repeat 20.0%float 10) 10
     = Some (repeat 20.0%float 10).
Proof.
  split; [reflexivity|]. split; [apply Nat.lt_0_succ|].
  split; [reflexivity|]. split; [reflexivity|].
  exact (proj1 (rolling_forecast_autoregressive sample_predict sample_accepts
                  sample_scaler sample_accepts sample_scaler
                  (repeat 20.0%float 10) 10 eq_refl (Nat.lt_0_succ 9)
                  eq_refl eq_refl)).
Defined.

(** C1 fails on the program.  A window of ten values, the newest of them
    infinity (what the JSON text Infinity decodes to), and a scaler that
    validates its input as scikit-learn does: [scaler.transform] raises,
    and the forecaster returns nothing, whatever the predictor. *)
Lemma infinite_reading_stops_forecast :
  length (repeat 20.0%float 9 ++ [infinity]) = 10
  /\ sample_accepts (repeat 20.0%float 9 ++ [infinity]) = false
  /\ predict_with_loaded_model sample_predict sample_accepts sample_scaler
       sample_accepts sample_scaler (repeat 20.0%float 9 ++ [infinity]) 10
     = None.
Proof. repeat split. Qed.

(** An eleventh reading on a window filled by ten. *)
Lemma sliding_window_fifo_witness :
  let full := sample_run initial (repeat payload_reading 10) in
  reading_of sample_loads payload_reading
  = Some (JFloat 20.0, JStr "2024-01-10T00:00:00")
  /\ length (temperatures full) = lookback
  /\ length (timestamps full) = lookback
  /\ fst (sample_on_message full payload_reading)
     = mk_state (tl (temperatures full) ++ [JFloat 20.0])
                (tl (timestamps full) ++ [JStr "2024-01-10T00:00:00"]).
Proof.
  intros full.
  split; [reflexivity|]. split; [reflexivity|]. split; [reflexivity|].
  destruct (sliding_window_fifo sample_loads sample_predict sample_accepts sample_scaler sample_accepts sample_scaler
              sample_float64 sample_fromisoformat sample_isoformat
              (repeat payload_reading 10))
    as (_ & _ & _ & _ & _ & _ & Hevict).
  apply Hevict; reflexivity.
Defined.

(** The ten days after 2024-01-10. *)
Lemma future_timestamps_exact_witness :
  (0 < dt_ordinal (mk_datetime 738895 0 0 None))%Z
  /\ (dt_ordinal (mk_datetime 738895 0 0 None) + Z.of_nat number_of_future_forecasts
      <= MAXORDINAL)%Z
  /\ generate_future_timestamps sample_isoformat (mk_datetime 738895 0 0 None)
     = Some ("2024-01-11T00:00:00" :: repeat "later" 9).
Proof.
  assert (Hlo : (0 < dt_ordinal (mk_datetime 738895 0 0 None))%Z) by reflexivity.
  assert (Hhi : (dt_ordinal (mk_datetime 738895 0 0 None)
                 + Z.of_nat number_of_future_forecasts <= MAXORDINAL)%Z)
    by (intros H; discriminate H).
  split; [exact Hlo|]. split; [exact Hhi|].
  exact (proj1 (future_timestamps_exact sample_isoformat
                  (mk_datetime 738895 0 0 None) Hlo Hhi)).
Defined.

(** C7, where the handler departs from it.  The payload
    [{"timestamp": "2024-01-10T00:00:00"}] is a JSON object, so it
    decodes, but it is not a reading: it has no temperature.  The handler
    does not drop it: it appends [None] to [temperatures] and the
    timestamp to [timestamps]; on a full window the [None] takes the
    place of the oldest reading.  A payload that does not decode at all
    is dropped and changes nothing. *)
Theorem payload_without_temperature_appended :
  sample_loads payload_without_temperature
  = Some (JObj [("timestamp", JStr "2024-01-10T00:00:00")])
  /\ sample_on_message initial payload_without_temperature
     = (mk_state [JNull] [JStr "2024-01-10T00:00:00"], NotEnoughData)
  /\ (let full := sample_run initial (repeat payload_reading 10) in
      temperatures full = repeat (JFloat 20.0) 10
      /\ temperatures (fst (sample_on_message full payload_without_temperature))
         = repeat (JFloat 20.0) 9 ++ [JNull])
  /\ sample_on_message initial "not json" = (initial, ErrorProcessing)
  /\ sample_on_message initial "[1, 2]" = (initial, ErrorProcessing).
Proof. repeat split. Qed.

(** A predictor that always answers 0.5, on ten readings of 20.0. *)
Lemma constant_predictor_constant_forecast_witness :
  (forall b : list float, (fun _ : list float => 0.5%float) b = 0.5%float)
  /\ length (repeat 20.0%float 10) = 10
  /\ sample_accepts (repeat 20.0%float 10) = true
  /\ sample_accepts (repeat 0.5%float number_of_future_forecasts) = true
  /\ predict_with_loaded_model (fun _ => 0.5%float) sample_accepts sample_scaler
       sample_accepts sample_scaler (repeat 20.0%float 10) 10
     = Some (repeat 0.5%float 10).
Proof.
  split; [intros b; reflexivity|]. split; [reflexivity|].
  split; [reflexivity|]. split; [reflexivity|].
  exact (constant_predictor_constant_forecast (fun _ => 0.5%float) sample_accepts
           sample_scaler sample_accepts sample_scaler 0.5%float
           (repeat 20.0%float 10) 10 (fun _ => eq_refl) eq_refl eq_refl eq_refl).
Defined.

(** The fourth reading of a run. *)
Lemma warm_up_then_forecast_witness :
  reading_of sample_loads payload_reading
  = Some (JFloat 20.0, JStr "2024-01-10T00:00:00")
  /\ (snd (sample_on_message (sample_run initial (repeat payload_reading 3))
             payload_reading) = NotEnoughData
      <-> S (length (readings sample_loads (repeat payload_reading 3))) < lookback).
Proof.
  split; [reflexivity|].
  exact (warm_up_then_forecast sample_loads sample_predict sample_accepts sample_scaler sample_accepts sample_scaler
           sample_float64 sample_fromisoformat sample_isoformat
           (repeat payload_reading 3) payload_reading
           (JFloat 20.0) (JStr "2024-01-10T00:00:00") eq_refl).
Defined.

(** The tenth reading of a run, and the message it publishes. *)
Lemma published_message_shape_witness :
  let nine := sample_run initial (repeat payload_reading 9) in
  let ten := sample_run initial (repeat payload_reading 10) in
  let m := mk_message 1 (timestamps ten) (repeat 20.0%float 10)
             ("2024-01-11T00:00:00" :: repeat "later" 9) (repeat 20.0%float 10) in
  length (temperatures nine) <= lookback
  /\ length (timestamps nine) <= lookback
  /\ sample_on_message nine payload_reading = (ten, Published m)
  /\ length (sensor_data m) = lookback
  /\ length (forecasts m) = number_of_future_forecasts.
Proof.
  intros nine ten m.
  assert (H1 : length (temperatures nine) <= lookback) by (apply Nat.leb_le; reflexivity).
  assert (H2 : length (timestamps nine) <= lookback) by (apply Nat.leb_le; reflexivity).
  assert (H3 : sample_on_message nine payload_reading = (ten, Published m)) by reflexivity.
  split; [exact H1|]. split; [exact H2|]. split; [exact H3|].
  destruct (published_message_shape sample_loads sample_predict sample_accepts sample_scaler
              sample_accepts sample_scaler sample_float64 sample_fromisoformat sample_isoformat
              nine ten payload_reading m H1 H2 H3)
    as (_ & _ & _ & _ & Hdata & _ & Hforecasts & _).
  split; [exact Hdata|exact Hforecasts].
Defined.

(** A full window and a date parser that refuses every string. *)
Lemma unparsed_timestamp_blocks_forecast_witness :
  let refuse := fun _ : string => @None datetime in
  let nine := sample_run initial (repeat payload_reading 9) in
  reading_of sample_loads payload_reading
  = Some (JFloat 20.0, JStr "2024-01-10T00:00:00")
  /\ lookback <= S (length (temperatures nine))
  /\ to_last_datetime refuse (JStr "2024-01-10T00:00:00") = None
  /\ on_message sample_loads sample_predict sample_accepts sample_scaler sample_accepts sample_scaler
       sample_float64 refuse sample_isoformat nine payload_reading
     = (sample_run initial (repeat payload_reading 10), ErrorProcessing).
Proof.
  intros refuse nine.
  assert (H2 : lookback <= S (length (temperatures nine)))
    by (apply Nat.leb_le; reflexivity).
  split; [reflexivity|]. split; [exact H2|]. split; [reflexivity|].
  exact (unparsed_timestamp_blocks_forecast sample_loads sample_predict sample_accepts sample_scaler
           sample_accepts sample_scaler sample_float64 refuse sample_isoformat
           nine payload_reading (JFloat 20.0) (JStr "2024-01-10T00:00:00")
           eq_refl H2 eq_refl).
Defined.

(** 9999-12-27, four days before the last date. *)
Lemma far_future_overflow_witness :
  (0 <= dt_ordinal (mk_datetime 3652055 0 0 None))%Z
  /\ (generate_future_timestamps sample_isoformat (mk_datetime 3652055 0 0 None) = None
      <-> (MAXORDINAL < dt_ordinal (mk_datetime 3652055 0 0 None)
                        + Z.of_nat number_of_future_forecasts)%Z).
Proof.
  assert (H : (0 <= dt_ordinal (mk_datetime 3652055 0 0 None))%Z)
    by (intros C; discriminate C).
  split; [exact H|].
  exact (far_future_overflow sample_isoformat (mk_datetime 3652055 0 0 None) H).
Defined.

End Broker.

(** ** [Second_IoT_Screen.py] *)

Module Screen.

(** [a > b] and [a < b] on Python floats. *)
Definition gt (a b : float) : bool := PrimFloat.ltb b a.
Definition lt (a b : float) : bool := PrimFloat.ltb a b.

(** The four module-level thresholds.  The functions below read them as
    globals; here they take them as one argument, and the program runs
    them at [configured]. *)
Record thresholds : Type := mk_thresholds {
  low_error : float;
  low_warning : float;
  high_warning : float;
  high_error : float
}.

Definition LOW_WARNING_THRESHOLD : float := 18.0.
Definition LOW_ERROR_THRESHOLD : float := 10.0.
Definition HIGH_WARNING_THRESHOLD : float := 25.0.
Definition HIGH_ERROR_THRESHOLD : float := 30.0.

Definition configured : thresholds :=
  mk_thresholds LOW_ERROR_THRESHOLD LOW_WARNING_THRESHOLD
                HIGH_WARNING_THRESHOLD HIGH_ERROR_THRESHOLD.

(** The configuration invariant of the classifier. *)
Definition well_ordered (th : thresholds) : bool :=
  lt (low_error th) (low_warning th)
  && lt (low_warning th) (high_warning th)
  && lt (high_warning th) (high_error th).

(** [alert_status]: ['normal'], ['warning'] or ['error']. *)
Inductive alert_status : Type := normal | warning | error.

Definition rank (s : alert_status) : nat :=
  match s with normal => 0 | warning => 1 | error => 2 end.

(** The higher of two severities, and the highest of a list. *)
Definition worse (a b : alert_status) : alert_status :=
  if rank a <? rank b then b else a.

Definition worst (l : list alert_status) : alert_status :=
  fold_right worse normal l.

(** The global dict [plot_data]. *)
Record plot_data : Type := mk_plot_data {
  sensor_data : list float;
  sensor_timestamps : list Z;
  forecasts : list float;
  future_timestamps : list Z;
  sensor_id : option Z
}.

Definition empty_plot_data : plot_data := mk_plot_data [] [] [] [] None.

(** A decoded forecast message; [None] is a key the dict does not have. *)
Record bundle : Type := mk_bundle {
  b_sensor_data : option (list float);
  b_sensor_timestamp : option (list string);
  b_forecasts : option (list float);
  b_future_timestamps : option (list string);
  b_sensor_id : option Z
}.

(** [data.get(key, [])]. *)
Definition get_or_empty {A : Type} (field : option (list A)) : list A :=
  match field with Some l => l | None => [] end.

(** A list comprehension over a call that may raise. *)
Fixpoint traverse {A B : Type} (f : A -> option B) (l : list A) : option (list B) :=
  match l with
  | [] => Some []
  | a :: r =>
      match f a, traverse f r with
      | Some b, Some bs => Some (b :: bs)
      | _, _ => None
      end
  end.

(** The bytes between the value and the comparison sign in the messages,
    as the source file has them, and the line break of ['\n'.join]. *)
Definition DEGREES_C : string :=
  String (ascii_of_nat 194) (String (ascii_of_nat 172)
    (String (ascii_of_nat 226) (String (ascii_of_nat 136)
      (String (ascii_of_nat 158) "C")))).

Definition NEWLINE : string := String (ascii_of_nat 10) EmptyString.

(** [f"{n}"] for a length. *)
Definition nat_str (n : nat) : string :=
  DecimalString.NilEmpty.string_of_uint (Nat.to_uint n).

(** The part of the plotter that shows the alert: the background colour
    it remembers and has set on figure and axes, and the alert text box. *)
Record plotter : Type := mk_plotter {
  current_background_color : string;
  figure_facecolor : string;
  axes_facecolor : string;
  alert_text : string;
  alert_text_color : string;
  alert_text_bbox : string;
  alert_text_visible : bool
}.

(** The plotter as [__init__] leaves it: white background, an empty alert
    text in the default colour on a white box. *)
Definition new_plotter : plotter :=
  mk_plotter "white" "white" "white" "" "black" "white" true.

(** *** Sample collaborators

    Float formatting for the few values used in the runs below. *)

Definition sample_format_2f (value : float) : string :=
  if PrimFloat.eqb value 19 then "19.00" else "?".

Definition sample_float_str (threshold : float) : string :=
  if PrimFloat.eqb threshold 20 then "20.0"
  else if PrimFloat.eqb threshold 30 then "30.0"
  else "?".

Definition sample_to_datetime (s : string) : option Z := Some 0%Z.

(** A configuration with lowError above lowWarning. *)
Definition unordered : thresholds := mk_thresholds 20 18 25 30.

Section WithCollaborators.

(** [f"{value:.2f}"] and [f"{threshold}"]. *)
Variable format_2f : float -> string.
Variable float_str : float -> string.
(** [pd.to_datetime]; [None] when it raises. *)
Variable to_datetime : string -> option Z.

(** [f"{value_type}: {value:.2f}..C {sign} {threshold}..C"]. *)
Definition violation (value_type : string) (value : float) (sign : string)
  (threshold : float) : string :=
  String.concat "" [value_type; ": "; format_2f value; DEGREES_C; " "; sign; " ";
                    float_str threshold; DEGREES_C].

(** The loop of [check_thresholds] over [values_to_check]. *)
Fixpoint scan_values (th : thresholds) (values_to_check : list (string * float))
  (error_violations warning_violations : list string) : list string * list string :=
  match values_to_check with
  | [] => (error_violations, warning_violations)
  | (value_type, value) :: rest =>
      if gt value (high_error th) then
        scan_values th rest
          (error_violations ++ [violation value_type value ">" (high_error th)])
          warning_violations
      else if lt value (low_error th) then
        scan_values th rest
          (error_violations ++ [violation value_type value "<" (low_error th)])
          warning_violations
      else if gt value (high_warning th) then
        scan_values th rest error_violations
          (warning_violations ++ [violation value_type value ">" (high_warning th)])
      else if lt value (low_warning th) then
        scan_values th rest error_violations
          (warning_violations ++ [violation value_type value "<" (low_warning th)])
      else scan_values th rest error_violations warning_violations
  end.

(** [f"... and {len(violations) - 3} more violations"]. *)
Definition more_violations (violations : list string) : string :=
  String.concat "" ["... and "; nat_str (length violations - 3); " more violations"].

(** The header, at most three violations and the count of the others. *)
Definition alert_lines (header : string) (violations : list string) : list string :=
  let alert_messages := [header] ++ firstn 3 violations in
  if 3 <? length violations
  then alert_messages ++ [more_violations violations]
  else alert_messages.

(** The values [check_thresholds] looks at: the last sensor value when
    there is one, then every forecast value. *)
Definition values_to_check (pd : plot_data) : list (string * float) :=
  (match last_item (sensor_data pd) with
   | Some last_sensor_value => [("Current Sensor"%string, last_sensor_value)]
   | None => []
   end)
  ++ map (fun forecast_value => ("Forecast"%string, forecast_value)) (forecasts pd).

(** [check_thresholds], from the loop on.  On lists of floats nothing in
    the [try] block raises, so the [except] branch is never taken. *)
Definition assess (th : thresholds) (values : list (string * float))
  : alert_status * list string :=
  let '(error_violations, warning_violations) := scan_values th values [] [] in
  match error_violations, warning_violations with
  | _ :: _, _ => (error, alert_lines "ERROR THRESHOLD EXCEEDED!" error_violations)
  | [], _ :: _ => (warning, alert_lines "WARNING THRESHOLD EXCEEDED!" warning_violations)
  | [], [] => (normal, [])
  end.

Definition check_thresholds_at (th : thresholds) (pd : plot_data)
  : alert_status * list string :=
  match values_to_check pd with
  | [] => (normal, [])
  | values => assess th values
  end.

Definition check_thresholds : plot_data -> alert_status * list string :=
  check_thresholds_at configured.

(** [color_map]. *)
Definition color_map (s : alert_status) : string :=
  match s with
  | normal => "white"
  | warning => "#FFFACD"
  | error => "#FFB6C1"
  end.

(** [update_background_color(alert_status)]. *)
Definition update_background_color (p : plotter) (status : alert_status) : plotter :=
  let new_color := color_map status in
  if String.eqb new_color (current_background_color p) then p
  else mk_plotter new_color new_color new_color
         (alert_text p) (alert_text_color p) (alert_text_bbox p)
         (alert_text_visible p).

(** [update_alert_text(alert_status, alert_messages)]. *)
Definition update_alert_text (p : plotter) (status : alert_status)
  (alert_messages : list string) : plotter :=
  match alert_messages with
  | _ :: _ =>
      let text_color := match status with error => "red" | _ => "orange" end in
      let bg_color := match status with error => "#FFE4E1" | _ => "#FFF8DC" end in
      mk_plotter (current_background_color p) (figure_facecolor p) (axes_facecolor p)
        (String.concat NEWLINE alert_messages) text_color bg_color true
  | [] =>
      mk_plotter (current_background_color p) (figure_facecolor p) (axes_facecolor p)
        (alert_text p) (alert_text_color p) (alert_text_bbox p) false
  end.

(** The alert part of [update_plot]: what the plotter does with one
    result of [check_thresholds]. *)
Definition update (p : plotter) (assessment : alert_status * list string) : plotter :=
  let '(status, alert_messages) := assessment in
  update_alert_text (update_background_color p status) status alert_messages.

(** [process_new_data(data)]: the new bundle replaces [plot_data]
    whole; when a timestamp does not convert, the exception is caught
    and [plot_data] stays as it was. *)
Definition process_new_data (pd : plot_data) (data : bundle) : plot_data :=
  let sensor_data := get_or_empty (b_sensor_data data) in
  let sensor_timestamps := get_or_empty (b_sensor_timestamp data) in
  let forecasts := get_or_empty (b_forecasts data) in
  let future_timestamps := get_or_empty (b_future_timestamps data) in
  match traverse to_datetime sensor_timestamps,
        traverse to_datetime future_timestamps with
  | Some sensor_timestamps_dt, Some future_timestamps_dt =>
      mk_plot_data sensor_data sensor_timestamps_dt forecasts future_timestamps_dt
        (b_sensor_id data)
  | _, _ => pd
  end.

(** [update_plot(frame)] with the bundles queued since the last frame:
    they are processed in order, then the thresholds are checked and
    the alert display updated.  (Redrawing the curves and the info text
    does not touch the state modelled here.) *)
Definition update_plot_at (th : thresholds) (s : plot_data * plotter)
  (queued : list bundle) : plot_data * plotter :=
  let pd := fold_left process_new_data queued (fst s) in
  (pd, update (snd s) (check_thresholds_at th pd)).

(** [main]: a new plotter, then one [update_plot] per animation frame.
    Nothing is checked before the first frame. *)
Definition main_at (th : thresholds) (frames : list (list bundle)) : plot_data * plotter :=
  fold_left (update_plot_at th) frames (empty_plot_data, new_plotter).

Definition main : list (list bundle) -> plot_data * plotter := main_at configured.

(** The severity of one value: the branch of the loop it takes. *)
Definition severity_of (th : thresholds) (value : float) : alert_status :=
  if gt value (high_error th) then error
  else if lt value (low_error th) then error
  else if gt value (high_warning th) then warning
  else if lt value (low_warning th) then warning
  else normal.

(** The line the loop records for a value that breaches a bound. *)
Definition violation_of (th : thresholds) (obs : string * float) : string :=
  let '(value_type, value) := obs in
  if gt value (high_error th) then violation value_type value ">" (high_error th)
  else if lt value (low_error th) then violation value_type value "<" (low_error th)
  else if gt value (high_warning th) then violation value_type value ">" (high_warning th)
  else violation value_type value "<" (low_warning th).

Definition has_severity (th : thresholds) (s : alert_status) (obs : string * float) : bool :=
  rank (severity_of th (snd obs)) =? rank s.

(** The lines of one tier, in the order of the observations. *)
Definition tier (th : thresholds) (s : alert_status) (values : list (string * float))
  : list string :=
  map (violation_of th) (filter (has_severity th s) values).

(** The status and the lines, read off the two tiers. *)
Definition verdict (error_violations warning_violations : list string)
  : alert_status * list string :=
  match error_violations, warning_violations with
  | _ :: _, _ => (error, alert_lines "ERROR THRESHOLD EXCEEDED!" error_violations)
  | [], _ :: _ => (warning, alert_lines "WARNING THRESHOLD EXCEEDED!" warning_violations)
  | [], [] => (normal, [])
  end.





(** Whether [process_new_data] gets through the timestamps of a bundle. *)
Definition convertible (data : bundle) : bool :=
  match traverse to_datetime (get_or_empty (b_sensor_timestamp data)),
        traverse to_datetime (get_or_empty (b_future_timestamps data)) with
  | Some _, Some _ => true
  | _, _ => false
  end.

(** Figure and axes show the background colour the plotter remembers. *)
Definition coherent (p : plotter) : Prop :=
  figure_facecolor p = current_background_color p
  /\ axes_facecolor p = current_background_color p.

(** The data of the three curves: [line_sensor], [line_forecast] and
    [connection_line], each as (x values, y values). *)
Record curves : Type := mk_curves {
  line_sensor : list Z * list float;
  line_forecast : list Z * list float;
  connection_line : list Z * list float
}.

(** The truth value of a list. *)
Definition nonempty {A : Type} (l : list A) : bool :=
  match l with [] => false | _ :: _ => true end.

(** [redraw_plot], the curves: all three are cleared, then each is set
    when the lists it needs are not empty.  ([auto_scale] and
    [update_info_text], called at its end, catch their own exceptions and
    do not touch the curves.) *)
Definition redraw_plot (pd : plot_data) : curves :=
  let sensor :=
    if nonempty (sensor_data pd) && nonempty (sensor_timestamps pd)
    then (sensor_timestamps pd, sensor_data pd) else ([], []) in
  let forecast :=
    if nonempty (forecasts pd) && nonempty (future_timestamps pd)
    then (future_timestamps pd, forecasts pd) else ([], []) in
  let connection :=
    if nonempty (sensor_data pd) && nonempty (sensor_timestamps pd)
       && nonempty (forecasts pd) && nonempty (future_timestamps pd)
    then
      match last_item (sensor_timestamps pd), last_item (sensor_data pd),
            future_timestamps pd, forecasts pd with
      | Some last_sensor_time, Some last_sensor_value,
        first_forecast_time :: _, first_forecast_value :: _ =>
          ([last_sensor_time; first_forecast_time],
           [last_sensor_value; first_forecast_value])
      | _, _, _, _ => ([], [])
      end
    else ([], []) in
  mk_curves sensor forecast connection.

(** *** The threshold check *)

Lemma tier_cons th s obs values :
  tier th s (obs :: values)
  = if has_severity th s obs
    then violation_of th obs :: tier th s values
    else tier th s values.
Proof. unfold tier. cbn [filter]. destruct (has_severity th s obs); reflexivity. Qed.

(** The loop sorts the lines into the two tiers and keeps their order. *)
Lemma scan_values_spec th : forall values error_violations warning_violations,
  scan_values th values error_violations warning_violations
  = (error_violations ++ tier th error values,
     warning_violations ++ tier th warning values).
Proof.
  induction values as [|[value_type value] values IH]; intros ev wv.
  - cbn. rewrite !app_nil_r. reflexivity.
  - rewrite !tier_cons. unfold has_severity, severity_of, violation_of.
    cbn [scan_values snd].
    destruct (gt value (high_error th));
      [|destruct (lt value (low_error th));
        [|destruct (gt value (high_warning th));
          [|destruct (lt value (low_warning th))]]];
      cbn [rank Nat.eqb]; rewrite IH, <- ?app_assoc; reflexivity.
Qed.

Lemma assess_spec th values :
  assess th values = verdict (tier th error values) (tier th warning values).
Proof. unfold assess. rewrite scan_values_spec. reflexivity. Qed.

Lemma check_thresholds_at_spec th pd :
  check_thresholds_at th pd = assess th (values_to_check pd).
Proof.
  unfold check_thresholds_at. destruct (values_to_check pd); reflexivity.
Qed.

Lemma worse_error s : worse error s = error.
Proof. destruct s; reflexivity. Qed.

(** The status is the highest severity among the values. *)
Lemma assess_status th : forall values,
  fst (assess th values) = worst (map (fun obs => severity_of th (snd obs)) values).
Proof.
  intros values. rewrite assess_spec.
  induction values as [|obs values IH]; [reflexivity|].
  rewrite !tier_cons. unfold has_severity. cbn [map worst fold_right].
  fold (worst (map (fun obs => severity_of th (snd obs)) values)).
  rewrite <- IH.
  destruct (severity_of th (snd obs)); cbn [rank Nat.eqb];
    destruct (tier th error values), (tier th warning values); reflexivity.
Qed.

Lemma severity_of_configured v :
  severity_of configured v
  = if gt v HIGH_ERROR_THRESHOLD || lt v LOW_ERROR_THRESHOLD then error
    else if gt v HIGH_WARNING_THRESHOLD || lt v LOW_WARNING_THRESHOLD then warning
    else normal.
Proof.
  unfold severity_of, configured. cbn [high_error low_error high_warning low_warning].
  destruct (gt v HIGH_ERROR_THRESHOLD), (lt v LOW_ERROR_THRESHOLD),
    (gt v HIGH_WARNING_THRESHOLD), (lt v LOW_WARNING_THRESHOLD); reflexivity.
Qed.

(** C3.  With the thresholds (10.0, 18.0, 25.0, 30.0), a value is an
    Error-level breach when it is above 30.0 or below 10.0, whatever the
    Warning bounds say about it, a Warning-level breach when it is not
    and is above 25.0 or below 18.0, and Normal otherwise; the status
    returned for a list of observations is the highest severity among
    them.  The value 5.0 gives Error (listed as below 10.0), 20.0
    Normal, 27.0 Warning, 35.0 Error, and 5.0 together with 27.0 gives
    Error with the Error entry alone listed. *)
Theorem classify_severity (values : list (string * float)) (pd : plot_data) :
  configured = mk_thresholds 10 18 25 30
  /\ (forall v,
        severity_of configured v
        = if gt v 30 || lt v 10 then error
          else if gt v 25 || lt v 18 then warning
          else normal)
  /\ (forall value_type v,
        fst (assess configured [(value_type, v)])
        = if gt v 30 || lt v 10 then error
          else if gt v 25 || lt v 18 then warning
          else normal)
  /\ fst (assess configured values)
     = worst (map (fun obs => severity_of configured (snd obs)) values)
  /\ fst (check_thresholds pd)
     = worst (map (fun obs => severity_of configured (snd obs)) (values_to_check pd))
  /\ check_thresholds (mk_plot_data [5.0%float] [] [] [] None)
     = (error, ["ERROR THRESHOLD EXCEEDED!";
                violation "Current Sensor" 5 "<" 10])
  /\ check_thresholds (mk_plot_data [20.0%float] [] [] [] None) = (normal, [])
  /\ check_thresholds (mk_plot_data [27.0%float] [] [] [] None)
     = (warning, ["WARNING THRESHOLD EXCEEDED!";
                  violation "Current Sensor" 27 ">" 25])
  /\ check_thresholds (mk_plot_data [35.0%float] [] [] [] None)
     = (error, ["ERROR THRESHOLD EXCEEDED!";
                violation "Current Sensor" 35 ">" 30])
  /\ check_thresholds (mk_plot_data [5.0%float] [] [27.0%float] [] None)
     = (error, ["ERROR THRESHOLD EXCEEDED!";
                violation "Current Sensor" 5 "<" 10])
  /\ assess configured [("Forecast", 5.0%float); ("Forecast", 27.0%float)]
     = (error, ["ERROR THRESHOLD EXCEEDED!"; violation "Forecast" 5 "<" 10]).
Proof.
  split; [reflexivity|].
  split; [exact severity_of_configured|].
  split.
  { intros value_type v. rewrite assess_status. cbn [map snd worst fold_right].
    rewrite <- severity_of_configured.
    destruct (severity_of configured v); reflexivity. }
  split; [apply assess_status|].
  split; [unfold check_thresholds; rewrite check_thresholds_at_spec; apply assess_status|].
  repeat split.
Qed.

(** C9, as the program has it.  The values are checked in this order:
    the last sensor value when there is one, then the forecast values in
    the order of the bundle.  The messages are a header, then the first
    three lines of one tier only, in that order (the Error tier when it
    has a line, else the Warning tier), then, when that tier has more
    than three lines, one line counting the N others ("... and N more
    violations"). *)
Theorem violation_messages_capped (pd : plot_data) :
  let values := values_to_check pd in
  let errors := tier configured error values in
  let warnings := tier configured warning values in
  let others (lines : list string) :=
    if 3 <? length lines
    then [String.concat "" ["... and "; nat_str (length lines - 3); " more violations"]]
    else [] in
  values = (match last_item (sensor_data pd) with
            | Some last_sensor_value => [("Current Sensor", last_sensor_value)]
            | None => []
            end)
           ++ map (fun forecast_value => ("Forecast", forecast_value)) (forecasts pd)
  /\ errors = map (violation_of configured)
                  (filter (fun obs => rank (severity_of configured (snd obs)) =? 2) values)
  /\ warnings = map (violation_of configured)
                    (filter (fun obs => rank (severity_of configured (snd obs)) =? 1) values)
  /\ snd (check_thresholds pd)
     = match errors, warnings with
       | _ :: _, _ => "ERROR THRESHOLD EXCEEDED!" :: firstn 3 errors ++ others errors
       | [], _ :: _ => "WARNING THRESHOLD EXCEEDED!" :: firstn 3 warnings ++ others warnings
       | [], [] => []
       end
  /\ length (firstn 3 errors) <= 3
  /\ length (firstn 3 warnings) <= 3
  /\ snd (check_thresholds
            (mk_plot_data [] [] [31.0; 32.0; 33.0; 34.0; 35.0]%float [] None))
     = ["ERROR THRESHOLD EXCEEDED!";
        violation "Forecast" 31 ">" 30;
        violation "Forecast" 32 ">" 30;
        violation "Forecast" 33 ">" 30;
        "... and 2 more violations"].
Proof.
  intros values errors warnings others.
  split; [reflexivity|]. split; [reflexivity|]. split; [reflexivity|].
  split.
  { unfold check_thresholds. rewrite check_thresholds_at_spec, assess_spec.
    fold values. fold errors. fold warnings.
    unfold verdict, alert_lines, more_violations, others.
    destruct errors as [|e errors'].
    - destruct warnings as [|w warnings']; [reflexivity|].
      destruct (3 <? length (w :: warnings')); [|rewrite app_nil_r]; reflexivity.
    - destruct (3 <? length (e :: errors')); [|rewrite app_nil_r]; reflexivity. }
  split; [apply firstn_le_length|].
  split; [apply firstn_le_length|].
  reflexivity.
Qed.

(** C10.  The comparisons are strict: with the thresholds (10.0, 18.0,
    25.0, 30.0) a value of exactly 25.0 or exactly 18.0 is Normal, and a
    value of exactly 30.0 or exactly 10.0 is a Warning, not an Error,
    under either label. *)
Theorem threshold_comparisons_strict (value_type : string) :
  gt 30 HIGH_ERROR_THRESHOLD = false
  /\ lt 10 LOW_ERROR_THRESHOLD = false
  /\ gt 25 HIGH_WARNING_THRESHOLD = false
  /\ lt 18 LOW_WARNING_THRESHOLD = false
  /\ assess configured [(value_type, 25.0%float)] = (normal, [])
  /\ assess configured [(value_type, 18.0%float)] = (normal, [])
  /\ assess configured [(value_type, 30.0%float)]
     = (warning, ["WARNING THRESHOLD EXCEEDED!"; violation value_type 30 ">" 25])
  /\ assess configured [(value_type, 10.0%float)]
     = (warning, ["WARNING THRESHOLD EXCEEDED!"; violation value_type 10 "<" 18])
  /\ check_thresholds (mk_plot_data [25.0%float] [] [] [] None) = (normal, [])
  /\ check_thresholds (mk_plot_data [18.0%float] [] [] [] None) = (normal, [])
  /\ fst (check_thresholds (mk_plot_data [30.0%float] [] [] [] None)) = warning
  /\ fst (check_thresholds (mk_plot_data [10.0%float] [] [] [] None)) = warning
  /\ fst (check_thresholds (mk_plot_data [] [] [30.0%float; 25.0%float] [] None)) = warning
  /\ fst (check_thresholds (mk_plot_data [] [] [10.0%float; 18.0%float] [] None)) = warning.
Proof. repeat split. Qed.

(** C8.  A bundle with an empty (or absent) forecasts list is checked
    without failure and the result is the one computed from the last
    sensor value alone; with no sensor value either, the result is
    Normal with no message. *)
Theorem empty_forecasts_tolerated
  (pd : plot_data) (sensor_values : list float) (times future_times : list Z)
  (id : option Z) :
  check_thresholds (mk_plot_data sensor_values times [] future_times id)
  = match last_item sensor_values with
    | Some last_sensor_value => assess configured [("Current Sensor", last_sensor_value)]
    | None => (normal, [])
    end
  /\ fst (check_thresholds (mk_plot_data sensor_values times [] future_times id))
     = match last_item sensor_values with
       | Some last_sensor_value => severity_of configured last_sensor_value
       | None => normal
       end
  /\ check_thresholds (mk_plot_data [] times [] future_times id) = (normal, [])
  /\ process_new_data pd (mk_bundle (Some sensor_values) None (Some []) None id)
     = mk_plot_data sensor_values [] [] [] id
  /\ process_new_data pd (mk_bundle (Some sensor_values) None None None id)
     = mk_plot_data sensor_values [] [] [] id
  /\ process_new_data pd (mk_bundle None None None None id) = mk_plot_data [] [] [] [] id
  /\ check_thresholds (process_new_data pd (mk_bundle None None None None id))
     = (normal, []).
Proof.
  assert (H : check_thresholds (mk_plot_data sensor_values times [] future_times id)
              = match last_item sensor_values with
                | Some last_sensor_value =>
                    assess configured [("Current Sensor", last_sensor_value)]
                | None => (normal, [])
                end).
  { unfold check_thresholds, check_thresholds_at, values_to_check.
    cbn [sensor_data forecasts map]. rewrite app_nil_r.
    destruct (last_item sensor_values); reflexivity. }
  split; [exact H|]. split.
  { rewrite H. destruct (last_item sensor_values) as [v|]; [|reflexivity].
    rewrite assess_status. cbn [map snd worst fold_right].
    destruct (severity_of configured v); reflexivity. }
  repeat split.
Qed.

(** *** The alert display *)

Lemma update_background_color_held p status :
  current_background_color (update_background_color p status) = color_map status.
Proof.
  unfold update_background_color. cbv zeta.
  destruct (String.eqb_spec (color_map status) (current_background_color p)) as [E|_].
  - symmetry. exact E.
  - reflexivity.
Qed.

Lemma update_held p assessment :
  current_background_color (update p assessment) = color_map (fst assessment).
Proof.
  destruct assessment as [status [|m ms]]; cbn [update fst];
    unfold update_alert_text; cbn [current_background_color];
    apply update_background_color_held.
Qed.

Lemma update_background_color_same p status :
  current_background_color p = color_map status ->
  update_background_color p status = p.
Proof.
  intros E. unfold update_background_color. cbv zeta.
  rewrite E, String.eqb_refl. reflexivity.
Qed.

(** A second call with the same result changes nothing. *)
Lemma update_idempotent p assessment :
  update (update p assessment) assessment = update p assessment.
Proof.
  pose proof (update_held p assessment) as Hheld.
  destruct assessment as [status messages]. cbn [fst] in Hheld.
  unfold update at 1.
  rewrite update_background_color_same by exact Hheld.
  unfold update.
  destruct messages as [|m ms]; reflexivity.
Qed.

Lemma assessment_eq_dec (a b : alert_status * list string) : {a = b} + {a <> b}.
Proof.
  decide equality.
  - apply (list_eq_dec string_dec).
  - decide equality.
Defined.

(** C5.  The alert display changes on [update] only when the status or
    the messages differ from those of the previous call: a call with the
    status and messages of the call before leaves the display as it is,
    and so does a frame that finds no new bundle.  A call whose status is
    not the one held (its colour is not the current background) does
    change the display; so a warning or error result given twice to a new
    plotter changes the display on the first call and not on the
    second. *)
Theorem alert_update_idempotent :
  (forall p assessment,
      update (update p assessment) assessment = update p assessment)
  /\ (forall th s,
        update_plot_at th (update_plot_at th s []) [] = update_plot_at th s [])
  /\ (forall p previous assessment,
        update (update p previous) assessment <> update p previous ->
        fst assessment <> fst previous \/ snd assessment <> snd previous)
  /\ (forall p assessment,
        color_map (fst assessment) <> current_background_color p ->
        update p assessment <> p)
  /\ (forall assessment,
        fst assessment <> normal ->
        update new_plotter assessment <> new_plotter
        /\ update (update new_plotter assessment) assessment
           = update new_plotter assessment).
Proof.
  assert (Hchange : forall p assessment,
             color_map (fst assessment) <> current_background_color p ->
             update p assessment <> p).
  { intros p assessment Hneq Heq. apply Hneq.
    rewrite <- (update_held p assessment), Heq. reflexivity. }
  split; [exact update_idempotent|].
  split.
  { intros th [pd p]. unfold update_plot_at. cbn [fold_left fst snd].
    rewrite update_idempotent. reflexivity. }
  split.
  { intros p previous assessment Hneq.
    destruct (assessment_eq_dec assessment previous) as [->|Hdiff].
    - exfalso. apply Hneq. apply update_idempotent.
    - destruct assessment as [s1 m1], previous as [s0 m0]. cbn [fst snd].
      destruct s1, s0; try (left; discriminate);
        right; intros ->; apply Hdiff; reflexivity. }
  split; [exact Hchange|].
  intros assessment Hsev. split; [|apply update_idempotent].
  apply Hchange. cbn [new_plotter current_background_color].
  destruct assessment as [[| |] messages]; cbn [fst color_map] in *;
    [congruence|discriminate|discriminate].
Qed.

(** *** The thresholds *)

Lemma main_at_snoc th frames queued :
  main_at th (frames ++ [queued]) = update_plot_at th (main_at th frames) queued.
Proof. unfold main_at. rewrite fold_left_app. reflexivity. Qed.

(** C6, as the program has it.  The thresholds are the constants (10.0,
    18.0, 25.0, 30.0), which are in the order lowError < lowWarning <
    highWarning < highError.  The program does not check them: for every
    configuration, ordered or not, each frame is processed and the
    status is the highest severity that this configuration gives the
    checked values. *)
Theorem thresholds_fixed_not_validated :
  configured = mk_thresholds 10 18 25 30
  /\ well_ordered configured = true
  /\ (forall th pd,
        fst (check_thresholds_at th pd)
        = worst (map (fun obs => severity_of th (snd obs)) (values_to_check pd)))
  /\ (forall th frames queued,
        main_at th (frames ++ [queued])
        = update_plot_at th (main_at th frames) queued).
Proof.
  split; [reflexivity|]. split; [reflexivity|]. split.
  - intros th pd. rewrite check_thresholds_at_spec. apply assess_status.
  - exact main_at_snoc.
Qed.

(** *** Further properties of the check and the display *)

Lemma alert_lines_shape header violations :
  exists rest,
    alert_lines header violations = header :: rest /\ length rest <= 4.
Proof.
  unfold alert_lines. cbv zeta.
  pose proof (firstn_le_length 3 violations) as H3.
  destruct (3 <? length violations).
  - exists (firstn 3 violations ++ [more_violations violations]).
    split; [reflexivity|]. rewrite length_app. cbn [length]. lia.
  - exists (firstn 3 violations). split; [reflexivity|]. lia.
Qed.

Lemma verdict_shape error_violations warning_violations :
  match fst (verdict error_violations warning_violations) with
  | normal => snd (verdict error_violations warning_violations) = []
  | warning =>
      exists rest,
        snd (verdict error_violations warning_violations)
        = "WARNING THRESHOLD EXCEEDED!" :: rest /\ length rest <= 4
  | error =>
      exists rest,
        snd (verdict error_violations warning_violations)
        = "ERROR THRESHOLD EXCEEDED!" :: rest /\ length rest <= 4
  end.
Proof.
  destruct error_violations as [|e ev]; [destruct warning_violations as [|w wv]|];
    cbn [verdict fst snd]; try reflexivity; apply alert_lines_shape.
Qed.

Lemma check_shape th pd :
  match fst (check_thresholds_at th pd) with
  | normal => snd (check_thresholds_at th pd) = []
  | warning =>
      exists rest,
        snd (check_thresholds_at th pd) = "WARNING THRESHOLD EXCEEDED!" :: rest
        /\ length rest <= 4
  | error =>
      exists rest,
        snd (check_thresholds_at th pd) = "ERROR THRESHOLD EXCEEDED!" :: rest
        /\ length rest <= 4
  end.
Proof. rewrite check_thresholds_at_spec, assess_spec. apply verdict_shape. Qed.

(** The messages go with the status: there is none exactly when the
    status is normal; otherwise the first one is the header of the status
    and at most four lines follow (three violations and the count of the
    others), five in all at most. *)
Theorem messages_match_status (th : thresholds) (pd : plot_data) :
  (snd (check_thresholds_at th pd) = [] <-> fst (check_thresholds_at th pd) = normal)
  /\ length (snd (check_thresholds_at th pd)) <= 5
  /\ hd "" (snd (check_thresholds_at th pd))
     = match fst (check_thresholds_at th pd) with
       | normal => ""
       | warning => "WARNING THRESHOLD EXCEEDED!"
       | error => "ERROR THRESHOLD EXCEEDED!"
       end.
Proof.
  pose proof (check_shape th pd) as H.
  destruct (fst (check_thresholds_at th pd)).
  - rewrite H. cbn. split; [split; reflexivity|]. split; [lia|reflexivity].
  - destruct H as (rest & -> & Hlen). cbn [length hd].
    split; [split; discriminate|]. split; [lia|reflexivity].
  - destruct H as (rest & -> & Hlen). cbn [length hd].
    split; [split; discriminate|]. split; [lia|reflexivity].
Qed.

(** What the display shows after a check.  The background is the colour
    of the status.  For a warning or an error the alert box is visible,
    holds the messages joined by line breaks, in orange on cornsilk for a
    warning and in red on misty rose for an error.  For a normal status
    the box is hidden and keeps the text and colours it had. *)
Theorem display_reflects_check (th : thresholds) (pd : plot_data) (p : plotter) :
  let assessment := check_thresholds_at th pd in
  let p' := update p assessment in
  current_background_color p' = color_map (fst assessment)
  /\ match fst assessment with
     | normal =>
         alert_text_visible p' = false
         /\ alert_text p' = alert_text p
         /\ alert_text_color p' = alert_text_color p
         /\ alert_text_bbox p' = alert_text_bbox p
     | warning =>
         alert_text_visible p' = true
         /\ alert_text p' = String.concat NEWLINE (snd assessment)
         /\ alert_text_color p' = "orange"
         /\ alert_text_bbox p' = "#FFF8DC"
     | error =>
         alert_text_visible p' = true
         /\ alert_text p' = String.concat NEWLINE (snd assessment)
         /\ alert_text_color p' = "red"
         /\ alert_text_bbox p' = "#FFE4E1"
     end.
Proof.
  intros assessment p'. split; [apply update_held|].
  pose proof (check_shape th pd) as H. fold assessment in H.
  subst p'. destruct assessment as [status messages]. cbn [fst snd] in *.
  unfold update, update_alert_text, update_background_color. cbv zeta.
  destruct status.
  - rewrite H. destruct (String.eqb _ _); repeat split.
  - destruct H as (rest & -> & _). destruct (String.eqb _ _); repeat split.
  - destruct H as (rest & -> & _). destruct (String.eqb _ _); repeat split.
Qed.

Lemma update_coherent p assessment : coherent p -> coherent (update p assessment).
Proof.
  intros [Hf Ha]. destruct assessment as [status messages].
  unfold coherent, update, update_alert_text, update_background_color. cbv zeta.
  destruct (String.eqb _ _); destruct messages; cbn; split; assumption || reflexivity.
Qed.

Lemma main_at_invariant th : forall frames,
  coherent (snd (main_at th frames))
  /\ current_background_color (snd (main_at th frames))
     = color_map (fst (check_thresholds_at th (fst (main_at th frames)))).
Proof.
  intros frames. induction frames as [|queued frames IH] using rev_ind.
  - split; [split; reflexivity|reflexivity].
  - rewrite main_at_snoc. destruct IH as [Hc _].
    unfold update_plot_at. cbn [fst snd]. split.
    + apply update_coherent. exact Hc.
    + apply update_held.
Qed.

(** The background the program shows.  After any number of frames, with
    any thresholds, the figure and the axes have the colour the plotter
    remembers, and that colour is the one of the status of the data
    [plot_data] then holds; an update keeps figure, axes and remembered
    colour equal. *)
Theorem background_shows_status (th : thresholds) (frames : list (list bundle)) :
  coherent (snd (main_at th frames))
  /\ current_background_color (snd (main_at th frames))
     = color_map (fst (check_thresholds_at th (fst (main_at th frames))))
  /\ (forall p assessment, coherent p -> coherent (update p assessment)).
Proof.
  destruct (main_at_invariant th frames) as [Hc Hs].
  split; [exact Hc|]. split; [exact Hs|]. exact update_coherent.
Qed.

Lemma process_convertible pd1 pd2 data :
  convertible data = true -> process_new_data pd1 data = process_new_data pd2 data.
Proof.
  unfold convertible, process_new_data. cbv zeta.
  destruct (traverse to_datetime (get_or_empty (b_sensor_timestamp data)));
    [|discriminate].
  destruct (traverse to_datetime (get_or_empty (b_future_timestamps data)));
    [|discriminate].
  reflexivity.
Qed.

Lemma process_not_convertible pd data :
  convertible data = false -> process_new_data pd data = pd.
Proof.
  unfold convertible, process_new_data. cbv zeta.
  destruct (traverse to_datetime (get_or_empty (b_sensor_timestamp data)));
    [|reflexivity].
  destruct (traverse to_datetime (get_or_empty (b_future_timestamps data)));
    [discriminate|reflexivity].
Qed.

(** The latest bundle wins.  After the queue is drained, [plot_data] is
    what the last bundle whose timestamps convert gives, whatever was
    held before and whatever the earlier bundles were; bundles whose
    timestamps do not convert are skipped, and when none converts
    [plot_data] is left as it was. *)
Theorem latest_bundle_wins (pd : plot_data) (queued : list bundle) :
  fold_left process_new_data queued pd
  = match find convertible (rev queued) with
    | Some data => process_new_data empty_plot_data data
    | None => pd
    end.
Proof.
  induction queued as [|data queued IH] using rev_ind; [reflexivity|].
  rewrite fold_left_app, rev_unit. cbn [fold_left find].
  destruct (convertible data) eqn:Hc.
  - apply process_convertible. exact Hc.
  - rewrite process_not_convertible by exact Hc. exact IH.
Qed.

(** Only the newest sensor value is checked: the values before it in
    [sensor_data], the timestamps and the sensor id have no part in the
    result. *)
Theorem only_latest_sensor_value_checked (th : thresholds)
  (older : list float) (v : float) (times future_times : list Z)
  (forecast_values : list float) (id : option Z) :
  check_thresholds_at th (mk_plot_data (older ++ [v]) times forecast_values future_times id)
  = check_thresholds_at th (mk_plot_data [v] [] forecast_values [] None).
Proof.
  unfold check_thresholds_at, values_to_check. cbn [sensor_data forecasts].
  rewrite Broker.last_item_snoc. reflexivity.
Qed.

Lemma worse_comm a b : worse a b = worse b a.
Proof. destruct a, b; reflexivity. Qed.

Lemma worse_assoc a b c : worse a (worse b c) = worse (worse a b) c.
Proof. destruct a, b, c; reflexivity. Qed.

Lemma worst_permutation l l' : Permutation l l' -> worst l = worst l'.
Proof.
  intros H. induction H as [|x l l' _ IH|x y l|l l' l'' _ IH1 _ IH2].
  - reflexivity.
  - cbn [worst fold_right]. fold (worst l). fold (worst l'). rewrite IH. reflexivity.
  - cbn [worst fold_right]. fold (worst l).
    rewrite !worse_assoc, (worse_comm y x). reflexivity.
  - rewrite IH1. exact IH2.
Qed.

(** The status does not depend on the order of the values: checking the
    same values in another order gives the same status (the messages may
    differ in order). *)
Theorem status_order_independent (th : thresholds) (values values' : list (string * float)) :
  Permutation values values' ->
  fst (assess th values) = fst (assess th values').
Proof.
  intros H. rewrite !assess_status. apply worst_permutation.
  apply Permutation_map. exact H.
Qed.












(** The connecting segment is drawn exactly when both curves are; it then
    has two points, the last sensor point and the first forecast point. *)
Theorem connection_joins_curves (pd : plot_data) :
  let c := redraw_plot pd in
  (connection_line c <> ([], [])
   <-> line_sensor c <> ([], []) /\ line_forecast c <> ([], []))
  /\ (connection_line c = ([], [])
      \/ exists t v t' v',
           connection_line c = ([t; t'], [v; v'])
           /\ last_item (fst (line_sensor c)) = Some t
           /\ last_item (snd (line_sensor c)) = Some v
           /\ hd_error (fst (line_forecast c)) = Some t'
           /\ hd_error (snd (line_forecast c)) = Some v').
Proof.
  destruct pd as [sd st f ft id]. unfold redraw_plot.
  cbn [sensor_data sensor_timestamps forecasts future_timestamps
       line_sensor line_forecast connection_line].
  destruct sd as [|v0 sd]; cbn [nonempty andb].
  { split; [split; [intros H; exfalso; apply H; reflexivity
                   |intros [H _]; exfalso; apply H; reflexivity]|].
    left. reflexivity. }
  destruct st as [|t0 st]; cbn [nonempty andb].
  { split; [split; [intros H; exfalso; apply H; reflexivity
                   |intros [H _]; exfalso; apply H; reflexivity]|].
    left. reflexivity. }
  destruct f as [|v1 f]; cbn [nonempty andb].
  { split; [split; [intros H; exfalso; apply H; reflexivity
                   |intros [_ H]; exfalso; apply H; reflexivity]|].
    left. reflexivity. }
  destruct ft as [|t1 ft]; cbn [nonempty andb].
  { split; [split; [intros H; exfalso; apply H; reflexivity
                   |intros [_ H]; exfalso; apply H; reflexivity]|].
    left. reflexivity. }
  destruct (last_item (t0 :: st)) as [lt|] eqn:Ht.
  2:{ exfalso. unfold last_item in Ht.
      destruct (rev (t0 :: st)) eqn:Hr; [|discriminate].
      apply (f_equal (@length Z)) in Hr. rewrite length_rev in Hr. discriminate. }
  destruct (last_item (v0 :: sd)) as [lv|] eqn:Hv.
  2:{ exfalso. unfold last_item in Hv.
      destruct (rev (v0 :: sd)) eqn:Hr; [|discriminate].
      apply (f_equal (@length float)) in Hr. rewrite length_rev in Hr. discriminate. }
  split.
  - split; [intros _; split; discriminate|intros _; discriminate].
  - right. exists lt, lv, t1, v1. cbn [fst snd hd_error]. repeat split; assumption.
Qed.

End WithCollaborators.

(** *** A concrete run *)

(** C9 fails on the program.  With one Error value and four Warning
    values the messages are the header and the Error line: the Warning
    tier, which has more than three violations, gets neither entries nor
    a count.  And the count line of a tier of five reads "... and 2 more
    violations", not "...and 2 more". *)
Lemma one_tier_listed_and_longer_suffix :
  snd (check_thresholds sample_format_2f sample_float_str
         (mk_plot_data [35.0%float] [] [26.0; 27.0; 28.0; 29.0]%float [] None))
  = ["ERROR THRESHOLD EXCEEDED!";
     violation sample_format_2f sample_float_str "Current Sensor" 35 ">" 30]
  /\ last (snd (check_thresholds sample_format_2f sample_float_str
                  (mk_plot_data [] [] [31.0; 32.0; 33.0; 34.0; 35.0]%float [] None))) ""
     = "... and 2 more violations"
  /\ "... and 2 more violations" <> "...and 2 more".
Proof. split; [reflexivity|]. split; [reflexivity|discriminate]. Qed.

(** C6 fails on the program: started with thresholds that are not in
    order, it raises nothing; it processes the first bundle and shows an
    Error alert for 19.0, a value between the two low thresholds. *)
Lemma unordered_thresholds_still_run :
  well_ordered unordered = false
  /\ main_at sample_format_2f sample_float_str sample_to_datetime unordered
       [[mk_bundle (Some [19.0%float]) None None None (Some 1%Z)]]
     = (mk_plot_data [19.0%float] [] [] [] (Some 1%Z),
        mk_plotter "#FFB6C1" "#FFB6C1" "#FFB6C1"
          (String.concat NEWLINE
             ["ERROR THRESHOLD EXCEEDED!";
              String.concat "" ["Current Sensor: 19.00"; DEGREES_C; " < 20.0"; DEGREES_C]])
          "red" "#FFE4E1" true).
Proof. split; reflexivity. Qed.

(** A warning, then an error, on a new plotter. *)
Lemma alert_update_idempotent_witness :
  let first := (warning, ["WARNING THRESHOLD EXCEEDED!"]) in
  let second := (error, ["ERROR THRESHOLD EXCEEDED!"]) in
  (update (update new_plotter first) second <> update new_plotter first
   /\ (fst second <> fst first \/ snd second <> snd first))
  /\ (color_map (fst first) <> current_background_color new_plotter
      /\ update new_plotter first <> new_plotter)
  /\ (fst first <> normal
      /\ update new_plotter first <> new_plotter
      /\ update (update new_plotter first) first = update new_plotter first).
Proof.
  intros first second.
  destruct (alert_update_idempotent sample_format_2f sample_float_str sample_to_datetime)
    as (_ & _ & Honly & Hchange & Hnew).
  assert (H1 : update (update new_plotter first) second <> update new_plotter first)
    by (intros H; discriminate H).
  assert (H2 : color_map (fst first) <> current_background_color new_plotter)
    by (intros H; discriminate H).
  assert (H3 : fst first <> normal) by (intros H; discriminate H).
  split; [split; [exact H1 | exact (Honly new_plotter first second H1)]|].
  split; [split; [exact H2 | exact (Hchange new_plotter first H2)]|].
  split; [exact H3 | exact (Hnew first H3)].
Defined.

(** An error value and a warning value, in both orders. *)
Lemma status_order_independent_witness :
  Permutation [("Forecast", 5.0%float); ("Forecast", 27.0%float)]
              [("Forecast", 27.0%float); ("Forecast", 5.0%float)]
  /\ fst (assess sample_format_2f sample_float_str configured
            [("Forecast", 5.0%float); ("Forecast", 27.0%float)])
     = fst (assess sample_format_2f sample_float_str configured
              [("Forecast", 27.0%float); ("Forecast", 5.0%float)]).
Proof.
  split; [apply perm_swap|].
  exact (status_order_independent sample_format_2f sample_float_str configured
           _ _ (perm_swap _ _ _)).
Defined.

End Screen.

(** ** [mqtt_listener.py]

    The plotting listener reads the same readings with the same first
    three lines, and appends a reading only when it has a temperature. *)

Module Listener.

Definition N : nat := 100.

(** Python's truth value of what [json.loads] returns. *)
Definition truthy (v : json) : bool :=
  match v with
  | JNull => false
  | JBool b => b
  | JInt z => negb (z =? 0)%Z
  | JFloat f => negb (PrimFloat.eqb f 0)
  | JStr s => negb (String.eqb s "")
  | JArr l => match l with [] => false | _ :: _ => true end
  | JObj kv => match kv with [] => false | _ :: _ => true end
  end.

Section WithCollaborators.

Variable json_loads : string -> option json.

(** [on_message], the deques only. *)
Definition on_message (st : Broker.state) (payload : string) : Broker.state :=
  match Broker.reading_of json_loads payload with
  | None => st
  | Some (temp, ts) =>
      match temp with
      | JNull => st
      | _ =>
          let temperatures := Deque.append N (Broker.temperatures st) temp in
          Broker.mk_state temperatures
            (Deque.append N (Broker.timestamps st)
               (if truthy ts then ts else JInt (Z.of_nat (length temperatures))))
      end
  end.

(** A reading without a temperature leaves the deques as they were. *)
Lemma reading_without_temperature_skipped st payload ts :
  Broker.reading_of json_loads payload = Some (JNull, ts) ->
  on_message st payload = st.
Proof. intros H. unfold on_message. rewrite H. reflexivity. Qed.

(** The handler run over a stream of payloads. *)
Definition run (st : Broker.state) (payloads : list string) : Broker.state :=
  fold_left on_message payloads st.

(** Whether a reading has a temperature. *)
Definition has_temperature (r : json * json) : bool :=
  match fst r with
  | JNull => false
  | _ => true
  end.

(** What the listener keeps true of its deques. *)
Definition clean (st : Broker.state) : Prop :=
  ~ In JNull (Broker.temperatures st)
  /\ Forall (fun ts => truthy ts = true) (Broker.timestamps st)
  /\ length (Broker.temperatures st) = length (Broker.timestamps st)
  /\ length (Broker.temperatures st) <= N.

Lemma in_append {A : Type} (maxlen : nat) (d : list A) (x y : A) :
  In y (Deque.append maxlen d x) -> In y d \/ y = x.
Proof.
  unfold Deque.append. cbv zeta. intros H.
  assert (Hin : In y (d ++ [x])).
  { destruct (maxlen <? length (d ++ [x])); [|exact H].
    destruct (d ++ [x]); [destruct H|right; exact H]. }
  apply in_app_or in Hin. destruct Hin as [Hin|[->|[]]]; [left; exact Hin|right; reflexivity].
Qed.

Lemma on_message_accept st payload temp ts :
  Broker.reading_of json_loads payload = Some (temp, ts) ->
  temp <> JNull ->
  on_message st payload
  = Broker.mk_state
      (Deque.append N (Broker.temperatures st) temp)
      (Deque.append N (Broker.timestamps st)
         (if truthy ts then ts
          else JInt (Z.of_nat (length (Deque.append N (Broker.temperatures st) temp))))).
Proof.
  intros Hr Hne. unfold on_message. rewrite Hr.
  destruct temp; try reflexivity. exfalso. apply Hne. reflexivity.
Qed.

Lemma stamp_truthy (ts : json) (held : list json) :
  0 < length held ->
  truthy (if truthy ts then ts else JInt (Z.of_nat (length held))) = true.
Proof.
  intros Hpos. destruct (truthy ts) eqn:Hts; [exact Hts|].
  cbn [truthy]. destruct (Z.eqb_spec (Z.of_nat (length held)) 0); [lia|reflexivity].
Qed.

Lemma on_message_clean st payload : clean st -> clean (on_message st payload).
Proof.
  intros (Hnull & Htruthy & Hlen & Hcap).
  assert (Hpos : 0 < N) by (unfold N; lia).
  destruct (Broker.reading_of json_loads payload) as [[temp ts]|] eqn:Hr.
  2:{ unfold on_message. rewrite Hr. repeat split; assumption. }
  assert (Hdec : temp = JNull \/ temp <> JNull)
    by (destruct temp; (left; reflexivity) || (right; discriminate)).
  destruct Hdec as [->|Hne].
  { unfold on_message. rewrite Hr. repeat split; assumption. }
  rewrite (on_message_accept st payload temp ts Hr Hne).
  unfold clean. cbn [Broker.temperatures Broker.timestamps].
  split; [|split; [|split]].
  - intros Hin. apply in_append in Hin. destruct Hin as [Hin|Heq].
    + exact (Hnull Hin).
    + exact (Hne (eq_sym Heq)).
  - apply Forall_forall. intros y Hy. apply in_append in Hy.
    destruct Hy as [Hy|Heq].
    + exact (proj1 (Forall_forall _ _) Htruthy y Hy).
    + rewrite Heq. apply stamp_truthy.
      destruct (Broker.append_snoc N (Broker.temperatures st) temp Hpos) as [d' ->].
      rewrite length_app. cbn [length]. lia.
  - rewrite !(Broker.append_length N) by exact Hpos. rewrite Hlen. reflexivity.
  - apply Deque.append_length_le. exact Hcap.
Qed.

(** The listener's deques never hold a missing temperature nor a
    missing, empty or zero timestamp (such a timestamp is replaced by
    the count of temperatures held); they have the same length, at most
    [N] = 100. *)
Theorem listener_window_clean (payloads : list string) :
  clean (run Broker.initial payloads)
  /\ (forall st payload, clean st -> clean (on_message st payload)).
Proof.
  split; [|exact on_message_clean].
  unfold run.
  assert (H : forall st, clean st -> clean (fold_left on_message payloads st)).
  { induction payloads as [|p payloads IH]; intros st Hst; [exact Hst|].
    cbn [fold_left]. apply IH. apply on_message_clean. exact Hst. }
  apply H. unfold clean.
  cbn [Broker.initial Broker.temperatures Broker.timestamps length].
  split; [intros []|]. split; [constructor|]. split; [reflexivity|lia].
Qed.

Lemma on_message_temperatures st payload :
  Broker.temperatures (on_message st payload)
  = match Broker.reading_of json_loads payload with
    | Some r =>
        if has_temperature r
        then Deque.append N (Broker.temperatures st) (fst r)
        else Broker.temperatures st
    | None => Broker.temperatures st
    end.
Proof.
  unfold on_message, has_temperature.
  destruct (Broker.reading_of json_loads payload) as [[temp ts]|]; [|reflexivity].
  cbn [fst]. destruct temp; reflexivity.
Qed.

Lemma run_temperatures : forall payloads st seen,
  Broker.temperatures st = lastn N seen ->
  Broker.temperatures (run st payloads)
  = lastn N (seen ++ map fst (filter has_temperature
                                (Broker.readings json_loads payloads))).
Proof.
  induction payloads as [|p payloads IH]; intros st seen Hst.
  - cbn. rewrite app_nil_r. exact Hst.
  - unfold run. cbn [fold_left]. fold (run (on_message st p) payloads).
    unfold Broker.readings. cbn [flat_map]. fold (Broker.readings json_loads payloads).
    pose proof (on_message_temperatures st p) as Hstep.
    destruct (Broker.reading_of json_loads p) as [r|].
    + cbn [app filter]. destruct (has_temperature r).
      * rewrite (IH _ (seen ++ [fst r])).
        -- cbn [map]. rewrite <- app_assoc. reflexivity.
        -- rewrite Hstep, Hst. apply Deque.append_lastn.
      * apply IH. rewrite Hstep. exact Hst.
    + cbn [app]. apply IH. rewrite Hstep. exact Hst.
Qed.

(** The listener's [temperatures] deque holds the temperatures of the last
    min(n, 100) readings that have one, in arrival order; payloads that do
    not decode and readings without a temperature do not count. *)
Theorem listener_keeps_last_temperatures (payloads : list string) :
  Broker.temperatures (run Broker.initial payloads)
  = lastn N (map fst (filter has_temperature (Broker.readings json_loads payloads)))
  /\ N = 100.
Proof.
  split; [|reflexivity].
  apply (run_temperatures payloads Broker.initial []). reflexivity.
Qed.

End WithCollaborators.

Lemma payload_without_temperature_skipped :
  on_message Broker.sample_loads Broker.initial Broker.payload_without_temperature
  = Broker.initial.
Proof. reflexivity. Qed.

End Listener.

(** ** [mqtt_producer.py]

    The producer replays the rows of a CSV file, one message per row.  The
    temperature column is taken to hold floats, as [json.dumps] requires
    of it. *)

Module Producer.

Section WithCollaborators.

(** [json.dumps]. *)
Variable json_dumps : json -> string.
(** [isoformat] of the row's index. *)
Variable isoformat : datetime -> string.

(** The dict built for one row: its index and its 'Temperature'. *)
Definition message (row : datetime * float) : json :=
  JObj [("sensor_id", JInt 1);
        ("timestamp", JStr (isoformat (fst row)));
        ("temperature", JFloat (snd row))].

(** The payloads the loop over [temperature.iterrows()] publishes, in
    order. *)
Definition publish_all (rows : list (datetime * float)) : list string :=
  map (fun row => json_dumps (message row)) rows.

(** The broker's side. *)
Variable json_loads : string -> option json.
Variable model_predict : list float -> float.
Variable scaler_accepts : list float -> bool.
Variable scaler_transform : float -> float.
Variable scaler_inverse_accepts : list float -> bool.
Variable scaler_inverse_transform : float -> float.
Variable as_float64 : list json -> option (list float).
Variable fromisoformat : string -> option datetime.
Variable broker_isoformat : datetime -> string.

(** The reading the broker is meant to take from a row. *)
Definition reading (row : datetime * float) : json * json :=
  (JFloat (snd row), JStr (isoformat (fst row))).

Lemma reading_of_message row :
  json_loads (json_dumps (message row)) = Some (message row) ->
  Broker.reading_of json_loads (json_dumps (message row)) = Some (reading row).
Proof. intros H. unfold Broker.reading_of. rewrite H. reflexivity. Qed.

Lemma readings_of_published rows :
  Forall (fun row => json_loads (json_dumps (message row)) = Some (message row)) rows ->
  Broker.readings json_loads (publish_all rows) = map reading rows.
Proof.
  intros H. induction H as [|row rows Hrow _ IH]; [reflexivity|].
  unfold Broker.readings, publish_all in *. cbn [map flat_map].
  rewrite (reading_of_message row Hrow), IH. reflexivity.
Qed.

(** From the CSV to the window.  When the messages survive the JSON round
    trip, the broker reads from each published message the temperature
    and the timestamp of its row, one reading per row in the order of the
    file, so that after n rows its window holds the last min(n, 10)
    rows. *)
Theorem producer_fills_broker_window (rows : list (datetime * float)) :
  Forall (fun row => json_loads (json_dumps (message row)) = Some (message row)) rows ->
  length (publish_all rows) = length rows
  /\ Broker.readings json_loads (publish_all rows) = map reading rows
  /\ Broker.run json_loads model_predict scaler_accepts scaler_transform
       scaler_inverse_accepts scaler_inverse_transform as_float64 fromisoformat broker_isoformat Broker.initial (publish_all rows)
     = Broker.mk_state
         (lastn Broker.lookback (map (fun row => JFloat (snd row)) rows))
         (lastn Broker.lookback (map (fun row => JStr (isoformat (fst row))) rows)).
Proof.
  intros H. split; [apply length_map|]. split; [apply readings_of_published; exact H|].
  rewrite Broker.run_initial, (readings_of_published rows H), !map_map.
  reflexivity.
Qed.

End WithCollaborators.

(** *** A concrete run

    Twelve rows, one per day from 2024-01-01, and a JSON codec for their
    messages: the text of a message is named by its timestamp, and
    decoding finds the row of that timestamp. *)

Definition sample_rows : list (datetime * float) :=
  [(mk_datetime 738886 0 0 None, 11.0%float);
   (mk_datetime 738887 0 0 None, 12.0%float);
   (mk_datetime 738888 0 0 None, 13.0%float);
   (mk_datetime 738889 0 0 None, 14.0%float);
   (mk_datetime 738890 0 0 None, 15.0%float);
   (mk_datetime 738891 0 0 None, 16.0%float);
   (mk_datetime 738892 0 0 None, 17.0%float);
   (mk_datetime 738893 0 0 None, 18.0%float);
   (mk_datetime 738894 0 0 None, 19.0%float);
   (mk_datetime 738895 0 0 None, 20.0%float);
   (mk_datetime 738896 0 0 None, 21.0%float);
   (mk_datetime 738897 0 0 None, 22.0%float)].

Definition sample_row_isoformat (d : datetime) : string :=
  let day := Z.to_nat (dt_ordinal d - 738885) in
  String.concat ""
    ["2024-01-"; if day <? 10 then "0" else ""; Screen.nat_str day; "T00:00:00"].

Definition sample_dumps (m : json) : string :=
  match dict_get m "timestamp" with
  | Some (JStr s) => s
  | _ => ""
  end.

Definition sample_loads (payload : string) : option json :=
  option_map (message sample_row_isoformat)
    (find (fun row => String.eqb (sample_row_isoformat (fst row)) payload) sample_rows).

(** The twelve rows through the producer and the broker: twelve readings
    in the order of the file, of which the window holds the last ten. *)
Lemma producer_fills_broker_window_witness :
  Forall (fun row => sample_loads (sample_dumps (message sample_row_isoformat row))
                     = Some (message sample_row_isoformat row)) sample_rows
  /\ length (publish_all sample_dumps sample_row_isoformat sample_rows) = 12
  /\ Broker.readings sample_loads
       (publish_all sample_dumps sample_row_isoformat sample_rows)
     = map (reading sample_row_isoformat) sample_rows
  /\ Broker.run sample_loads Broker.sample_predict Broker.sample_accepts
       Broker.sample_scaler Broker.sample_accepts Broker.sample_scaler
       Broker.sample_float64 Broker.sample_fromisoformat Broker.sample_isoformat
       Broker.initial (publish_all sample_dumps sample_row_isoformat sample_rows)
     = Broker.mk_state
         (map JFloat [13.0%float; 14.0%float; 15.0%float; 16.0%float; 17.0%float; 18.0%float; 19.0%float; 20.0%float; 21.0%float; 22.0%float])
         (map JStr ["2024-01-03T00:00:00";
                    "2024-01-04T00:00:00";
                    "2024-01-05T00:00:00";
                    "2024-01-06T00:00:00";
                    "2024-01-07T00:00:00";
                    "2024-01-08T00:00:00";
                    "2024-01-09T00:00:00";
                    "2024-01-10T00:00:00";
                    "2024-01-11T00:00:00";
                    "2024-01-12T00:00:00"]).
Proof.
  assert (H : Forall (fun row =>
                        sample_loads (sample_dumps (message sample_row_isoformat row))
                        = Some (message sample_row_isoformat row)) sample_rows)
    by (repeat (constructor; [reflexivity|]); constructor).
  destruct (producer_fills_broker_window sample_dumps sample_row_isoformat sample_loads
              Broker.sample_predict Broker.sample_accepts Broker.sample_scaler
              Broker.sample_accepts Broker.sample_scaler Broker.sample_float64
              Broker.sample_fromisoformat Broker.sample_isoformat sample_rows H)
    as (Hlen & Hreadings & Hwindow).
  split; [exact H|]. split; [exact Hlen|]. split; [exact Hreadings|exact Hwindow].
Defined.

End Producer.
